(** * Document assistant: terminal adapter and prompt selection

    A shallow embedding of [app_textual.py] (the Textual front end of the
    document assistant) and of [src/prompts.py] (prompt constants and the
    template dispatch).

    Conventions of the embedding.
    - Python [str] values are [string]s holding the UTF-8 encoding of the
      text; the literals below are the source's literals, byte for byte.
    - A Python dict whose keys are fixed by the backend contract is a record
      of [option]s ([None] = key missing); free-form dicts are [gmap]s; the
      document mapping, which is iterated in insertion order, is an
      association list.
    - Widgets are values, the widget tree is part of the application state,
      and every coroutine is a computation in a state-and-exception monad.
    - The event-loop clock is a rational number of seconds carried in the
      state; it advances in [asyncio.sleep] and in the backend call only. *)

From Stdlib Require Import String Ascii List ZArith QArith Lia Lqa.
From stdpp Require Import gmap strings pretty.
Import ListNotations.

Open Scope string_scope.

(** ** src/prompts.py *)

Module Prompts.

Definition QA_SYSTEM_PROMPT : string :=
"You are a helpful document assistant specializing in answering questions about financial and healthcare documents.

Your capabilities:
- Answer specific questions about document content
- Cite sources accurately
- Provide clear, concise answers
- Use available tools to search and read documents

Guidelines:
1. Always search for relevant documents before answering
2. Cite specific document IDs when referencing information
3. If information is not found, say so clearly
4. Be precise with numbers and dates
5. Maintain professional tone

".

Definition SUMMARIZATION_SYSTEM_PROMPT : string :=
"You are an expert document summarizer specializing in financial and healthcare documents.

Your approach:
- Extract key information and main points
- Organize summaries logically
- Highlight important numbers, dates, and parties
- Keep summaries concise but comprehensive

Guidelines:
1. First search for and read the relevant documents
2. Structure summaries with clear sections
3. Include document IDs in your summary
4. Focus on actionable information
".

Definition CALCULATION_SYSTEM_PROMPT : string :=
"You are a precise calculation assistant specializing in financial and healthcare document analysis.

Your capabilities:
- Retrieve relevant documents using the document reader tool
- Extract numerical data from documents
- Perform accurate mathematical calculations using the calculator tool
- Provide clear explanations of calculations

Guidelines:
1. First, determine which document(s) need to be retrieved and use the document reader tool to access them
2. Extract the relevant numbers from the document content
3. Determine the mathematical expression needed based on the user's request
4. ALWAYS use the calculator tool for ALL calculations, no matter how simple
5. Never perform mental math - always use the calculator tool
6. Provide step-by-step explanations of your calculations
7. Include the mathematical expression and the result in your response
8. Cite the document IDs where you found the numbers

Remember: Use the calculator tool for every calculation, even basic addition or subtraction.".

(** The three kinds of entry [ChatPromptTemplate.from_messages] is given. *)
Inductive message_template : Type :=
| SystemMessagePromptTemplate (template : string)
| MessagesPlaceholder (variable_name : string)
| HumanMessagePromptTemplate (template : string).

Definition ChatPromptTemplate : Type := list message_template.

Definition get_chat_prompt_template (intent_type : string) : ChatPromptTemplate :=
  let system_prompt :=
    if String.eqb intent_type "qa" then QA_SYSTEM_PROMPT
    else if String.eqb intent_type "summarization" then SUMMARIZATION_SYSTEM_PROMPT
    else if String.eqb intent_type "calculation" then CALCULATION_SYSTEM_PROMPT
    else QA_SYSTEM_PROMPT in
  [ SystemMessagePromptTemplate system_prompt;
    MessagesPlaceholder "chat_history";
    HumanMessagePromptTemplate "{input}" ].

(** The template built around a given system prompt. *)
Definition chat_template_of (system_prompt : string) : ChatPromptTemplate :=
  [ SystemMessagePromptTemplate system_prompt;
    MessagesPlaceholder "chat_history";
    HumanMessagePromptTemplate "{input}" ].

End Prompts.

(** ** Python text operations used by the adapter *)

Module Text.

(** [str.isspace] holds of the code points U+0009..U+000D, U+001C..U+0020,
    U+0085, U+00A0, U+1680, U+2000..U+200A, U+2028, U+2029, U+202F, U+205F
    and U+3000.  On UTF-8 text these are the following one-, two- and
    three-byte sequences. *)
Definition is_space1 (a : nat) : bool :=
  (Nat.leb 9 a && Nat.leb a 13) || (Nat.leb 28 a && Nat.leb a 32).

Definition is_space2 (a b : nat) : bool :=
  Nat.eqb a 194 && (Nat.eqb b 133 || Nat.eqb b 160).

Definition is_space3 (a b c : nat) : bool :=
  (Nat.eqb a 225 && Nat.eqb b 154 && Nat.eqb c 128)
  || (Nat.eqb a 226 && Nat.eqb b 128
      && ((Nat.leb 128 c && Nat.leb c 138)
          || Nat.eqb c 168 || Nat.eqb c 169 || Nat.eqb c 175))
  || (Nat.eqb a 226 && Nat.eqb b 129 && Nat.eqb c 159)
  || (Nat.eqb a 227 && Nat.eqb b 128 && Nat.eqb c 128).

(** Drop the whitespace at the front of [s].  With [backwards] the bytes
    of [s] are those of a text read from its end, so that a multi-byte
    character shows its last byte first. *)
Fixpoint drop_space (backwards : bool) (s : string) : string :=
  match s with
  | EmptyString => EmptyString
  | String c1 r1 =>
      let a1 := nat_of_ascii c1 in
      if is_space1 a1 then drop_space backwards r1
      else
        match r1 with
        | EmptyString => s
        | String c2 r2 =>
            let a2 := nat_of_ascii c2 in
            if (if backwards then is_space2 a2 a1 else is_space2 a1 a2)
            then drop_space backwards r2
            else
              match r2 with
              | EmptyString => s
              | String c3 r3 =>
                  let a3 := nat_of_ascii c3 in
                  if (if backwards then is_space3 a3 a2 a1
                      else is_space3 a1 a2 a3)
                  then drop_space backwards r3
                  else s
              end
        end
  end.

Definition reverse (s : string) : string :=
  string_of_list_ascii (List.rev (list_ascii_of_string s)).

Definition lstrip (s : string) : string := drop_space false s.
Definition rstrip (s : string) : string := reverse (drop_space true (reverse s)).

(** [s.strip()] *)
Definition strip (s : string) : string := rstrip (lstrip s).

(** Truth value of a [str]: false exactly on the empty string. *)
Definition truthy (s : string) : bool :=
  match s with EmptyString => false | _ => true end.

(** [sep.join(l)] *)
Definition join (sep : string) (l : list string) : string := String.concat sep l.

(** [s[:n]] on text whose characters are single bytes; [take_chars] below
    cuts any text by characters. *)
Definition take (n : nat) (s : string) : string := substring 0 n s.

(** [needle in s] as a proposition. *)
Definition contains (s needle : string) : Prop :=
  exists before after, s = before ++ needle ++ after.

End Text.

(** ** The format specification [,.2f] *)

Module Format.

(** The integer nearest to [num / den], ties to the even one, for
    [0 <= num]. *)
Definition round_half_even (num : Z) (den : positive) : Z :=
  let q := (num / Zpos den)%Z in
  let r := (num mod Zpos den)%Z in
  match (2 * r ?= Zpos den)%Z with
  | Lt => q
  | Gt => (q + 1)%Z
  | Eq => if Z.even q then q else (q + 1)%Z
  end.

(** A comma after every third character, as long as more follow. *)
Fixpoint group3 (s : string) : string :=
  match s with
  | String a (String b (String c (String d r as rest))) =>
      String a (String b (String c (String "," (group3 rest))))
  | _ => s
  end.

(** The thousands separator: groups of three digits counted from the
    right. *)
Definition group_thousands (digits : string) : string :=
  Text.reverse (group3 (Text.reverse digits)).

Definition two_digits (n : Z) : string :=
  if (n <? 10)%Z then "0" ++ pretty (Z.to_N n) else pretty (Z.to_N n).

(** The hundredths [x] is rounded to, as a natural number. *)
Definition cents (x : Q) : Z :=
  round_half_even (Z.abs (Qnum x) * 100) (Qden x).

(** [format(x, ',.2f')] for a finite number whose exact value is [x];
    [PyFormat.format_comma_2f] below is the format on Python values. *)
Definition format_comma_2f (x : Q) : string :=
  (if (Qnum x <? 0)%Z then "-" else "")
  ++ group_thousands (pretty (Z.to_N (cents x / 100)))
  ++ "." ++ two_digits (cents x mod 100).

End Format.

(** ** Exceptions and the state-and-exception monad *)

(** An instance of Python's [Exception], the class the adapter's handlers
    name; [exc_str e] is [str(e)].  What is raised outside that class (the
    interpreter's exit signals) is not part of the embedding. *)
Record py_exception : Type := PyException { exc_str : string }.

(** [KeyError(k)], whose [str] is the [repr] of the key. *)
Definition KeyError (k : string) : py_exception :=
  PyException ("'" ++ k ++ "'").

(** [AttributeError] of an attribute access on [None]. *)
Definition AttributeError_None (attr : string) : py_exception :=
  PyException ("'NoneType' object has no attribute '" ++ attr ++ "'").

Inductive outcome (A : Type) : Type :=
| Returned (a : A)
| Raised (e : py_exception).
Arguments Returned {A} a.
Arguments Raised {A} e.

(** A computation over a state [S] that returns a value or raises; the
    state reached when it raises is kept, as in Python. *)
Definition M (S A : Type) : Type := S -> outcome A * S.

#[global] Instance M_ret S : MRet (M S) :=
  fun A a st => (Returned a, st).

#[global] Instance M_bind S : MBind (M S) :=
  fun A B f m st =>
    match m st with
    | (Returned a, st') => f a st'
    | (Raised e, st') => (Raised e, st')
    end.

Definition raise {S A} (e : py_exception) : M S A :=
  fun st => (Raised e, st).

Definition gets {S A} (f : S -> A) : M S A :=
  fun st => (Returned (f st), st).

Definition modify {S} (f : S -> S) : M S unit :=
  fun st => (Returned tt, f st).

(** [try: body except Exception as e: handler] *)
Definition try_except {S A} (body : M S A) (handler : py_exception -> M S A) : M S A :=
  fun st =>
    match body st with
    | (Returned a, st') => (Returned a, st')
    | (Raised e, st') => handler e st'
    end.

(** [try: body except: pass] *)
Definition try_pass {S} (body : M S unit) : M S unit :=
  try_except body (fun _ => mret tt).

(** [d[k]] on a dict given by the presence of its key. *)
Definition getitem {S A} (k : string) (v : option A) : M S A :=
  match v with
  | Some a => mret a
  | None => raise (KeyError k)
  end.

(** ** Data exchanged with the backend *)

(** The dict [process_message] returns.  A field is [None] when the key is
    missing from the dict. *)
Record process_result : Type := {
  success : option bool;
  response : option string;
  intent : option (gmap string string);
  tools_used : option (list string);
  sources : option (list string);
  error : option string
}.

(** An entry of [assistant.retriever.documents]: the attributes the listing
    reads, the metadata restricted to its numeric entries; [raw_document]
    below has the metadata as Python values. *)
Record document : Type := {
  title : string;
  doc_type : string;
  metadata : gmap string Q
}.

(** The operations of [DocumentAssistant] the adapter invokes.  Each may
    raise and may change the assistant; [process_message] also reports the
    time its execution takes, in seconds. *)
Class Backend (B : Type) : Type := {
  DocumentAssistant : string -> string -> Q -> outcome B;
  start_session : string -> B -> outcome string * B;
  process_message : string -> B -> outcome process_result * B * Q;
  documents : B -> list (string * document)
}.

(** ** Widgets *)

(** The [metadata] dict of a [MessageDisplay]; [{}] is [no_metadata]. *)
Record message_metadata : Type := {
  md_intent : option (gmap string string);
  md_tools_used : option (list string);
  md_sources : option (list string)
}.

Definition no_metadata : message_metadata :=
  {| md_intent := None; md_tools_used := None; md_sources := None |}.

Inductive widget : Type :=
| Static (content : string) (classes : string) (id : option string)
| MessageDisplay (role : string) (content : string) (metadata : message_metadata).

Record InfoScreen : Type := {
  info_content : string;
  info_title : string
}.

(** What the trace of a run records. *)
Inductive event : Type :=
| AssistantConstructed (api_key : string)
| SessionStarted (user_id : string)
| IndicatorMounted
| MessageSent (text : string)
| BackendCompleted
| IndicatorRemoved.

(** The application object together with the widgets it queries.  The
    children of [#chat-container] carry the identity of the widget object;
    [clock] is [loop.time()]; [trace] lists the events of the run with the
    clock value at which each happened, oldest first. *)
Record app (B : Type) : Type := {
  assistant : option B;
  session_id : option string;
  message_input : string;
  chat : list (nat * widget);
  next_widget : nat;
  status_bar : string;
  session_info : string;
  screens : list InfoScreen;
  clock : Q;
  trace : list (Q * event)
}.
Arguments assistant {B} _.
Arguments session_id {B} _.
Arguments message_input {B} _.
Arguments chat {B} _.
Arguments next_widget {B} _.
Arguments status_bar {B} _.
Arguments session_info {B} _.
Arguments screens {B} _.
Arguments clock {B} _.
Arguments trace {B} _.

(** ** Field updates and the primitive operations of the toolkit *)

(** [x < y] on the clock's numbers, as a test. *)
Definition Qlt_bool (x y : Q) : bool := negb (Qle_bool y x).

Section Primitives.
Context {B : Type}.

Definition set_assistant (a : option B) (st : app B) : app B :=
  {| assistant := a; session_id := session_id st;
     message_input := message_input st; chat := chat st;
     next_widget := next_widget st; status_bar := status_bar st;
     session_info := session_info st; screens := screens st;
     clock := clock st; trace := trace st |}.

Definition set_session_id (s : option string) (st : app B) : app B :=
  {| assistant := assistant st; session_id := s;
     message_input := message_input st; chat := chat st;
     next_widget := next_widget st; status_bar := status_bar st;
     session_info := session_info st; screens := screens st;
     clock := clock st; trace := trace st |}.

Definition set_message_input (v : string) (st : app B) : app B :=
  {| assistant := assistant st; session_id := session_id st;
     message_input := v; chat := chat st;
     next_widget := next_widget st; status_bar := status_bar st;
     session_info := session_info st; screens := screens st;
     clock := clock st; trace := trace st |}.

Definition set_chat (c : list (nat * widget)) (n : nat) (st : app B) : app B :=
  {| assistant := assistant st; session_id := session_id st;
     message_input := message_input st; chat := c;
     next_widget := n; status_bar := status_bar st;
     session_info := session_info st; screens := screens st;
     clock := clock st; trace := trace st |}.

Definition set_status_bar (s : string) (st : app B) : app B :=
  {| assistant := assistant st; session_id := session_id st;
     message_input := message_input st; chat := chat st;
     next_widget := next_widget st; status_bar := s;
     session_info := session_info st; screens := screens st;
     clock := clock st; trace := trace st |}.

Definition set_session_info (s : string) (st : app B) : app B :=
  {| assistant := assistant st; session_id := session_id st;
     message_input := message_input st; chat := chat st;
     next_widget := next_widget st; status_bar := status_bar st;
     session_info := s; screens := screens st;
     clock := clock st; trace := trace st |}.

Definition set_screens (l : list InfoScreen) (st : app B) : app B :=
  {| assistant := assistant st; session_id := session_id st;
     message_input := message_input st; chat := chat st;
     next_widget := next_widget st; status_bar := status_bar st;
     session_info := session_info st; screens := l;
     clock := clock st; trace := trace st |}.

Definition set_clock (t : Q) (st : app B) : app B :=
  {| assistant := assistant st; session_id := session_id st;
     message_input := message_input st; chat := chat st;
     next_widget := next_widget st; status_bar := status_bar st;
     session_info := session_info st; screens := screens st;
     clock := t; trace := trace st |}.

Definition set_trace (l : list (Q * event)) (st : app B) : app B :=
  {| assistant := assistant st; session_id := session_id st;
     message_input := message_input st; chat := chat st;
     next_widget := next_widget st; status_bar := status_bar st;
     session_info := session_info st; screens := screens st;
     clock := clock st; trace := l |}.

(** Record an event at the current clock value. *)
Definition log (ev : event) : M (app B) unit :=
  modify (fun st => set_trace (trace st ++ [(clock st, ev)]) st).

(** [await chat.mount(w)]: [w] becomes the last child of the chat
    container; the result identifies the mounted widget object.  The
    parsing of the widget's text is left to [Strict.mount]. *)
Definition mount (w : widget) : M (app B) nat :=
  fun st =>
    (Returned (next_widget st),
     set_chat (chat st ++ [(next_widget st, w)]) (S (next_widget st)) st).

Definition is_mounted (h : nat) (st : app B) : bool :=
  existsb (fun c => Nat.eqb (fst c) h) (chat st).

(** [w.remove()] for the widget object [h]; removing a widget that is no
    longer in the tree changes nothing. *)
Definition remove (h : nat) : M (app B) unit :=
  fun st =>
    if is_mounted h st then
      (Returned tt,
       set_chat (List.filter (fun c => negb (Nat.eqb (fst c) h)) (chat st))
                (next_widget st) st)
    else (Returned tt, st).

(** [status.update(s)] on [#status-bar], for a text the toolkit accepts;
    [Strict.status_update] parses it. *)
Definition status_update (s : string) : M (app B) unit :=
  modify (set_status_bar s).

(** [session_info.update(s)] on [#session-info] *)
Definition session_info_update (s : string) : M (app B) unit :=
  modify (set_session_info s).

(** [self.push_screen(scr)] *)
Definition push_screen (scr : InfoScreen) : M (app B) unit :=
  modify (fun st => set_screens (screens st ++ [scr]) st).

(** [await asyncio.sleep(d)]: resumes [d] seconds later, at once when
    [d] is not positive. *)
Definition sleep (d : Q) : M (app B) unit :=
  modify (fun st =>
    if Qlt_bool 0 d then set_clock (clock st + d)%Q st else st).

(** [asyncio.get_event_loop().time()] *)
Definition loop_time : M (app B) Q := gets clock.

End Primitives.

(** ** class MessageDisplay *)

Definition NL : string := String (ascii_of_nat 10) EmptyString.

(** [MessageDisplay(role, content, metadata)], with [metadata or {}], for a
    content the toolkit accepts; [Strict.new_MessageDisplay] parses it. *)
Definition new_MessageDisplay (role content : string)
    (metadata : option message_metadata) : widget :=
  MessageDisplay role content (default no_metadata metadata).

(** The text of the one [Static] the widget yields from [compose], and that
    [Static]. *)
Definition compose_text (role content : string) (md : message_metadata) : string :=
  if String.eqb role "user" then
    "[bold cyan]👤 You:[/bold cyan]" ++ NL ++ content
  else
    let message := "[bold green]🤖 Assistant:[/bold green]" ++ NL ++ content in
    let message :=
      match md_intent md with
      | Some i =>
          if decide (i = ∅) then message
          else
            let intent_type := default "unknown" (i !! "intent_type") in
            message ++ NL ++ NL ++ "[dim]Intent: " ++ intent_type ++ "[/dim]"
      | None => message
      end in
    let message :=
      match md_tools_used md with
      | Some ((_ :: _) as l) =>
          let tools := Text.join ", " l in
          message ++ NL ++ "[dim]Tools: " ++ tools ++ "[/dim]"
      | _ => message
      end in
    let message :=
      match md_sources md with
      | Some ((_ :: _) as l) =>
          let sources := Text.join ", " l in
          message ++ NL ++ "[dim]Sources: " ++ sources ++ "[/dim]"
      | _ => message
      end in
    message.

Definition compose (role content : string) (md : message_metadata) : widget :=
  Static (compose_text role content md)
         (if String.eqb role "user" then "user-message" else "assistant-message")
         None.



(** The markup a child of the chat container puts on the screen. *)
Definition rendered (w : widget) : string :=
  match w with
  | Static content _ _ => content
  | MessageDisplay role content md => compose_text role content md
  end.

(** ** class InfoScreen *)

Definition InfoScreen_compose (scr : InfoScreen) : widget :=
  Static ("[bold]" ++ info_title scr ++ "[/bold]" ++ NL ++ NL ++ info_content scr)
         "" (Some "info-content").

(** ** class DocumentAssistantApp *)

Section DocumentAssistantApp.
Context {B : Type} `{Backend B}.

(** [DocumentAssistantApp()] before it is mounted, at clock value [t]. *)
Definition new_app (t : Q) : app B :=
  {| assistant := None; session_id := None; message_input := "";
     chat := []; next_widget := 0; status_bar := ""; session_info := "";
     screens := []; clock := t; trace := [] |}.

(** [DocumentAssistant(openai_api_key=k, model_name=m, temperature=t)] *)
Definition call_DocumentAssistant (k m : string) (t : Q) : M (app B) B :=
  log (AssistantConstructed k);;
  match DocumentAssistant k m t with
  | Returned b => mret b
  | Raised e => raise e
  end.

(** [self.assistant.start_session(user_id)] *)
Definition call_start_session (user_id : string) : M (app B) string :=
  a ← gets assistant;
  match a with
  | None => raise (AttributeError_None "start_session")
  | Some b =>
      log (SessionStarted user_id);;
      let '(r, b') := start_session user_id b in
      modify (set_assistant (Some b'));;
      match r with
      | Returned sid => mret sid
      | Raised e => raise e
      end
  end.

(** [await loop.run_in_executor(executor, self.assistant.process_message,
    user_message)]: the attribute is looked up first; the call then takes
    the time the backend reports, whether it returns or raises. *)
Definition call_process_message (user_message : string) : M (app B) process_result :=
  a ← gets assistant;
  match a with
  | None => raise (AttributeError_None "process_message")
  | Some b =>
      log (MessageSent user_message);;
      let '(r, b', d) := process_message user_message b in
      modify (set_assistant (Some b'));;
      modify (fun st => set_clock (clock st + d)%Q st);;
      log BackendCompleted;;
      match r with
      | Returned res => mret res
      | Raised e => raise e
      end
  end.

Definition welcome_text : string :=
  "👋 Welcome to the Document Assistant!" ++ NL ++ NL ++
  "I can help you with:" ++ NL ++
  "• Answering questions about documents" ++ NL ++
  "• Summarizing documents" ++ NL ++
  "• Performing calculations on document data" ++ NL ++ NL ++
  "Try asking: 'What's the total amount in invoice INV-001?'".

(** [on_mount]; [api_key] is what [os.getenv("OPENAI_API_KEY")] returns
    after [load_dotenv()], [now] what
    [datetime.now().strftime('%H:%M:%S')] returns. *)
Definition on_mount (api_key : option string) (now : string) : M (app B) unit :=
  status_update "[yellow]⏳ Initializing assistant...[/yellow]";;
  if negb (Text.truthy (default "" api_key)) then
    status_update
      "[red]❌ Error: OPENAI_API_KEY not found. Please create a .env file.[/red]"
  else
    try_except
      (a ← call_DocumentAssistant (default "" api_key) "gpt-4o" 0.1;
       modify (set_assistant (Some a));;
       let user_id := "textual_user" in
       sid ← call_start_session user_id;
       modify (set_session_id (Some sid));;
       session_info_update
         ("[green]✓ Session: " ++ Text.take 8 sid ++ "...[/green]" ++ NL ++
          "[dim]Started: " ++ now ++ "[/dim]");;
       status_update "[green]✓ Ready! Type your message below.[/green]";;
       _ ← mount (new_MessageDisplay "assistant" welcome_text None);
       mret tt)
      (fun e => status_update ("[red]❌ Error: " ++ exc_str e ++ "[/red]")).

Definition thinking_text : string :=
  "[bold green]🤖 Assistant:[/bold green]" ++ NL ++
  "[dim italic]💭 Thinking...[/dim italic]".

(** [thinking_msg.remove()] *)
Definition remove_indicator (thinking_msg : nat) : M (app B) unit :=
  present ← gets (is_mounted thinking_msg);
  (if present : bool then log IndicatorRemoved else mret tt);;
  remove thinking_msg.

Definition send_message : M (app B) unit :=
  user_message ← gets (fun st => Text.strip (message_input st));
  if negb (Text.truthy user_message) then mret tt
  else
    modify (set_message_input "");;
    _ ← mount (new_MessageDisplay "user" user_message None);
    thinking_msg ← mount (Static thinking_text "assistant-message thinking"
                                 (Some "thinking-indicator"));
    log IndicatorMounted;;
    status_update "[yellow]⏳ Processing your request...[/yellow]";;
    sleep 0.1;;
    start_time ← loop_time;
    try_except
      (result ← call_process_message user_message;
       now ← loop_time;
       let elapsed := (now - start_time)%Q in
       (if Qlt_bool elapsed 0.5 then sleep (0.5 - elapsed) else mret tt);;
       remove_indicator thinking_msg;;
       ok ← getitem "success" (success result);
       if ok : bool then
         text ← getitem "response" (response result);
         _ ← mount (new_MessageDisplay "assistant"
                      (if Text.truthy text then text else "No response generated.")
                      (Some {| md_intent := intent result;
                               md_tools_used := Some (default [] (tools_used result));
                               md_sources := Some (default [] (sources result)) |}));
         status_update "[green]✓ Response received[/green]"
       else
         _ ← mount (new_MessageDisplay "assistant"
                      ("❌ Error: " ++ default "Unknown error" (error result))
                      None);
         status_update "[red]❌ Error occurred[/red]")
      (fun e =>
         try_pass (remove_indicator thinking_msg);;
         _ ← mount (new_MessageDisplay "assistant"
                      ("❌ Unexpected error: " ++ exc_str e) None);
         status_update ("[red]❌ Error: " ++ exc_str e ++ "[/red]")).

(** [on_button_pressed], given [event.button.id] *)
Definition on_button_pressed (button_id : option string) : M (app B) unit :=
  if decide (button_id = Some "send-button") then send_message else mret tt.

(** [on_input_submitted], given [event.input.id] *)
Definition on_input_submitted (input_id : option string) : M (app B) unit :=
  if decide (input_id = Some "message-input") then send_message else mret tt.

(** The lines the listing adds for one entry of the document mapping. *)
Definition doc_lines (doc_id : string) (doc : document) : string :=
  ("• " ++ doc_id ++ ": " ++ title doc ++ " (" ++ doc_type doc ++ ")" ++ NL)
  ++ match metadata doc !! "total" with
     | Some total => "  Amount: $" ++ Format.format_comma_2f total ++ NL
     | None => ""
     end.

(** The text [action_show_docs] builds by its loop over
    [documents.items()]. *)
Definition docs_text (docs : list (string * document)) : string :=
  fold_left (fun text entry => text ++ doc_lines (fst entry) (snd entry))
            docs
            ("📚 Available Documents:" ++ NL ++ NL).

(** The lines for a run of entries, in their order. *)
Definition listing (docs : list (string * document)) : string :=
  fold_right (fun entry rest => doc_lines (fst entry) (snd entry) ++ rest) "" docs.

Definition action_show_docs : M (app B) unit :=
  a ← gets assistant;
  match a with
  | None => mret tt
  | Some b => push_screen {| info_content := docs_text (documents b);
                             info_title := "Documents" |}
  end.

Definition help_text : string :=
"
# Document Assistant Help

## Example Queries

### Q&A
- What's the total amount in invoice INV-001?
- What are the terms of contract CON-001?
- Show me details about claim CLM-001

### Summarization
- Summarize all contracts
- Give me a summary of invoice INV-002
- Summarize the insurance claims

### Calculations
- Calculate the sum of all invoice totals
- What's the average amount of all documents?
- Add the totals from INV-001 and INV-002

## Keyboard Shortcuts
- **Ctrl+D** - Show documents
- **Ctrl+H** - Show this help
- **Ctrl+N** - Start new session
- **Ctrl+Q** - Quit application
- **Enter** - Send message
".

Definition action_show_help : M (app B) unit :=
  push_screen {| info_content := help_text; info_title := "Help" |}.

(** [action_new_session]; [now] is what
    [datetime.now().strftime('%H:%M:%S')] returns. *)
Definition action_new_session (now : string) : M (app B) unit :=
  a ← gets assistant;
  match a with
  | None => mret tt
  | Some _ =>
      sid ← call_start_session "textual_user";
      modify (set_session_id (Some sid));;
      session_info_update
        ("[green]✓ New Session: " ++ Text.take 8 sid ++ "...[/green]" ++ NL ++
         "[dim]Started: " ++ now ++ "[/dim]");;
      status_update "[green]✓ New session started[/green]"
  end.

(** [self.app.pop_screen()]: the screen on top of the stack goes.  Below
    the pushed screens lies the default screen, which [screens] does not
    list and which the toolkit refuses to pop. *)
Definition pop_screen : M (app B) unit :=
  fun st =>
    match screens st with
    | [] => (Raised (PyException
                       "Can't pop screen; there must be at least one screen on the stack"),
             st)
    | _ :: _ => (Returned tt, set_screens (removelast (screens st)) st)
    end.

(** [InfoScreen.on_button_pressed], given [event.button.id] *)
Definition InfoScreen_on_button_pressed (button_id : option string) : M (app B) unit :=
  if decide (button_id = Some "close-button") then pop_screen else mret tt.

End DocumentAssistantApp.

(** ** A scripted backend

    A stand-in for [DocumentAssistant] whose answers are fixed in advance:
    each call of [process_message] consumes the next scripted reply. *)

Record scripted : Type := {
  replies : list (outcome process_result * Q);
  sessions_started : nat;
  session_fails : bool;
  library : list (string * document)
}.

Definition scripted_process_message (text : string) (b : scripted)
  : outcome process_result * scripted * Q :=
  match replies b with
  | [] => (Raised (PyException "nothing scripted"), b, 0%Q)
  | (r, d) :: rest =>
      (r, {| replies := rest; sessions_started := sessions_started b;
             session_fails := session_fails b; library := library b |}, d)
  end.

Definition scripted_start_session (user_id : string) (b : scripted)
  : outcome string * scripted :=
  if session_fails b then (Raised (PyException "session store offline"), b)
  else
    (Returned ("0000000" ++ pretty (sessions_started b) ++ "-" ++ user_id),
     {| replies := replies b; sessions_started := S (sessions_started b);
        session_fails := session_fails b; library := library b |}).

Definition scripted_new (key model : string) (temperature : Q) : outcome scripted :=
  if String.eqb key "revoked" then Raised (PyException "invalid API key")
  else Returned {| replies := []; sessions_started := 0;
                   session_fails := false; library := [] |}.

#[global] Instance scripted_backend : Backend scripted := {
  DocumentAssistant := scripted_new;
  start_session := scripted_start_session;
  process_message := scripted_process_message;
  documents := library
}.

(** A scripted assistant with the given replies and documents. *)
Definition script (rs : list (outcome process_result * Q))
    (docs : list (string * document)) : scripted :=
  {| replies := rs; sessions_started := 1; session_fails := false;
     library := docs |}.



Definition invoice_result : process_result :=
  {| success := Some true;
     response := Some "INV-001 total is $1,200.00";
     intent := Some {[ "intent_type" := "qa" ]};
     tools_used := Some ["document_reader"; "calculator"];
     sources := Some ["INV-001"];
     error := None |}.



(** The adapter holding the scripted assistant [b], with [text] typed into
    the input field and nothing on the screen yet. *)
Definition ready (b : scripted) (text : string) : app scripted :=
  set_message_input text (set_assistant (Some b) (new_app 0)).

(** A backend whose client can be constructed but whose session store is
    down: every call on the client raises. *)
Inductive unreachable_store : Type := UnreachableStore.

#[global] Instance unreachable_backend : Backend unreachable_store := {
  DocumentAssistant := fun _ _ _ => Returned UnreachableStore;
  start_session := fun _ b => (Raised (PyException "session store offline"), b);
  process_message := fun _ b => (Raised (PyException "session store offline"), b, 0%Q);
  documents := fun _ => []
}.

(** Text made of ASCII whitespace only: spaces, tabs, line breaks and the
    other one-byte characters [str.isspace] accepts. *)
Fixpoint ascii_blank (s : string) : bool :=
  match s with
  | EmptyString => true
  | String c r => Text.is_space1 (nat_of_ascii c) && ascii_blank r
  end.

(** [s.replace(',', '')] *)
Definition without_commas (s : string) : string :=
  string_of_list_ascii
    (List.filter (fun c => negb (Ascii.eqb c ",")) (list_ascii_of_string s)).

(** ** Events driving the adapter *)

(** What the toolkit delivers to the application after it is mounted: the
    user edits the input field, presses the button or Enter, or triggers
    one of the key bindings. *)
Inductive ui_event : Type :=
| Typed (text : string)
| ButtonPressed (button_id : option string)
| InputSubmitted (input_id : option string)
| ActionShowDocs
| ActionShowHelp
| ActionNewSession (now : string).

Section Dispatch.
Context {B : Type} `{Backend B}.

Definition dispatch (ev : ui_event) : M (app B) unit :=
  match ev with
  | Typed text => modify (set_message_input text)
  | ButtonPressed button_id => on_button_pressed button_id
  | InputSubmitted input_id => on_input_submitted input_id
  | ActionShowDocs => action_show_docs
  | ActionShowHelp => action_show_help
  | ActionNewSession now => action_new_session now
  end.

(** Deliver the events in order.  A handler that raises ends the run
    with that exception, as the toolkit does not resume the application
    after an unhandled error. *)
Fixpoint run (evs : list ui_event) : M (app B) unit :=
  match evs with
  | [] => mret tt
  | ev :: rest => dispatch ev;; run rest
  end.

(** Every widget object in the chat container was created before the
    next one to be created. *)
Definition fresh_handles (st : app B) : Prop :=
  Forall (fun c => fst c < next_widget st) (chat st).



(** The trace without the starts of sessions. *)
Definition trace_without_sessions (st : app B) : list (Q * event) :=
  List.filter (fun e => match snd e with SessionStarted _ => false | _ => true end)
              (trace st).



(** Every child of the chat container is a message; the thinking
    indicator, a bare [Static], is not among them. *)
Definition is_message (w : widget) : bool :=
  match w with
  | MessageDisplay _ _ _ => true
  | Static _ _ _ => false
  end.

Definition only_messages (st : app B) : Prop :=
  forallb (fun c => is_message (snd c)) (chat st) = true.

(** The texts on the screen, from the top of the chat container down. *)
Definition transcript (st : app B) : list string :=
  map (fun c => rendered (snd c)) (chat st).

(** The clock value at which [send_message] goes on to remove the
    indicator, when the backend call was dispatched at [start_time] and
    returned at [now]: the effect on the clock of
    [if elapsed < 0.5: await asyncio.sleep(0.5 - elapsed)]. *)
Definition indicator_release (start_time now : Q) : Q :=
  let elapsed := (now - start_time)%Q in
  if Qlt_bool elapsed 0.5 then
    if Qlt_bool 0 (0.5 - elapsed) then (now + (0.5 - elapsed))%Q else now
  else now.

(** The children of the chat container after a submission: what was
    there, the user's message, and the reply. *)
Definition chat_after (st : app B) (reply : widget) : list (nat * widget) :=
  (chat st
   ++ [(next_widget st,
        MessageDisplay "user" (Text.strip (message_input st)) no_metadata);
       (S (S (next_widget st)), reply)])%list.

(** The reply and the status text shown for an exception the handler of
    [send_message] catches. *)
Definition unexpected_error (e : py_exception) : widget * string :=
  (MessageDisplay "assistant" ("❌ Unexpected error: " ++ exc_str e) no_metadata,
   "[red]❌ Error: " ++ exc_str e ++ "[/red]").

(** The reply and the status text for a result the backend returned. *)
Definition reply_to (r : process_result) : widget * string :=
  match success r with
  | None => unexpected_error (KeyError "success")
  | Some true =>
      match response r with
      | None => unexpected_error (KeyError "response")
      | Some text =>
          (MessageDisplay "assistant"
             (if Text.truthy text then text else "No response generated.")
             {| md_intent := intent r;
                md_tools_used := Some (default [] (tools_used r));
                md_sources := Some (default [] (sources r)) |},
           "[green]✓ Response received[/green]")
      end
  | Some false =>
      (MessageDisplay "assistant"
         ("❌ Error: " ++ default "Unknown error" (error r)) no_metadata,
       "[red]❌ Error occurred[/red]")
  end.

End Dispatch.

(** * The adapter on a toolkit that checks what it is given

    The definitions above take the toolkit to display whatever text it is
    handed and the document metadata to be numbers.  The toolkit in fact
    parses the text of a [Static] as console markup, when the widget is
    created and when it is updated, and raises on a closing tag that closes
    nothing; the format specification [,.2f] raises on a value that is not
    a number.  The definitions below are the same methods with those checks
    in place. *)

(** ** Python values in the metadata of a document *)

(** A float, given by its sign and the exact value of its magnitude. *)
Inductive py_float : Type :=
| FloatFinite (negative : bool) (magnitude : Q)
| FloatInf (negative : bool)
| FloatNaN.

Inductive py_value : Type :=
| PyNone
| PyStr (s : string)
| PyInt (n : Z)
| PyFloat (f : py_float).

(** An entry of [assistant.retriever.documents] with its metadata as the
    backend holds it. *)
Record raw_document : Type := {
  raw_title : string;
  raw_doc_type : string;
  raw_metadata : gmap string py_value
}.

(** Access to [assistant.retriever.documents.items()]. *)
Class Retriever (B : Type) : Type := {
  raw_documents : B -> list (string * raw_document)
}.

Module PyFormat.

(** [float(n)]: the nearest double, ties to even; [None] when the int is too
    large ([OverflowError]). *)
Definition int_to_float (n : Z) : option py_float :=
  let a := Z.abs n in
  if (a <? 2 ^ 53)%Z then Some (FloatFinite (n <? 0)%Z (a # 1))
  else
    let e := (Z.log2 a - 52)%Z in
    let v := (Format.round_half_even a (Z.to_pos (2 ^ e)) * 2 ^ e)%Z in
    if (2 ^ 1024 <=? v)%Z then None
    else Some (FloatFinite (n <? 0)%Z (v # 1)).

(** [format(f, ',.2f')] for a float. *)
Definition format_float (f : py_float) : string :=
  match f with
  | FloatFinite negative magnitude =>
      (if negative then "-" else "")
      ++ Format.format_comma_2f (Z.abs (Qnum magnitude) # Qden magnitude)
  | FloatInf negative => if negative then "-inf" else "inf"
  | FloatNaN => "nan"
  end.

(** [format(v, ',.2f')], as the f-string of the listing evaluates it. *)
Definition format_comma_2f (v : py_value) : outcome string :=
  match v with
  | PyNone =>
      Raised (PyException "unsupported format string passed to NoneType.__format__")
  | PyStr _ =>
      Raised (PyException "Unknown format code 'f' for object of type 'str'")
  | PyInt n =>
      match int_to_float n with
      | Some f => Returned (format_float f)
      | None => Raised (PyException "int too large to convert to float")
      end
  | PyFloat f => Returned (format_float f)
  end.





End PyFormat.

(** ** Text by characters *)

(** A byte that continues a multi-byte character of UTF-8 text. *)
Definition is_continuation (c : ascii) : bool :=
  Nat.leb 128 (nat_of_ascii c) && Nat.ltb (nat_of_ascii c) 192.

(** [s[:n]]: the first [n] characters of UTF-8 text. *)
Fixpoint take_chars (n : nat) (s : string) : string :=
  match s with
  | EmptyString => EmptyString
  | String c r =>
      if is_continuation c then String c (take_chars n r)
      else
        match n with
        | O => EmptyString
        | S n' => String c (take_chars n' r)
        end
  end.

(** ** Console markup *)

(** What the adapter needs of the toolkit's markup parser: whether it
    accepts a text, and what it raises on a text it does not accept. *)
Class Toolkit : Type := {
  markup_ok : string -> bool;
  MarkupError : string -> py_exception
}.

(** A reading of console markup as far as the balance of tags goes: a tag
    is a bracketed text that begins with a lower-case letter, [#], [/] or
    [@] and holds no opening bracket; a backslash before the bracket makes
    it plain text; [[/name]] closes the last open tag of that name, [[/]]
    the last open tag, and it is an error when there is none. *)
Module Markup.

Definition tag_start (c : ascii) : bool :=
  let a := nat_of_ascii c in
  (Nat.leb 97 a && Nat.leb a 122) || Nat.eqb a 35 || Nat.eqb a 47 || Nat.eqb a 64.

Fixpoint before_equals (s : string) : string :=
  match s with
  | EmptyString => EmptyString
  | String c r =>
      if Nat.eqb (nat_of_ascii c) 61 then EmptyString
      else String c (before_equals r)
  end.

Fixpoint remove_first (name : string) (stack : list string) : option (list string) :=
  match stack with
  | [] => None
  | x :: rest =>
      if String.eqb x name then Some rest
      else option_map (cons x) (remove_first name rest)
  end.

(** What a tag does to the stack of open tags; [None] when it is a closing
    tag with nothing to close. *)
Definition apply_tag (t : string) (stack : list string) : option (list string) :=
  match t with
  | EmptyString => Some stack
  | String c r =>
      if Nat.eqb (nat_of_ascii c) 47 then
        match Text.strip r with
        | EmptyString =>
            match stack with
            | [] => None
            | _ :: rest => Some rest
            end
        | name => remove_first name stack
        end
      else Some (before_equals t :: stack)
  end.

(** The first closing tag that closes nothing, with the position of its
    bracket counted in characters; [None] when there is no such tag. *)
Fixpoint scan (s : string) (stack : list string) (tag : option (nat * string))
    (escaped : bool) (pos : nat) : option (nat * string) :=
  match s with
  | EmptyString => None
  | String c r =>
      let a := nat_of_ascii c in
      let next := if is_continuation c then pos else S pos in
      if Nat.eqb a 91 then
        if escaped then scan r stack None false next
        else scan r stack (Some (pos, EmptyString)) false next
      else if Nat.eqb a 93 then
        match tag with
        | Some (start, String c0 t) =>
            if tag_start c0 then
              match apply_tag (String c0 t) stack with
              | Some stack' => scan r stack' None false next
              | None => Some (start, String c0 t)
              end
            else scan r stack None false next
        | _ => scan r stack None false next
        end
      else
        match tag with
        | Some (start, t) =>
            scan r stack (Some (start, t ++ String c EmptyString)) false next
        | None => scan r stack None (Nat.eqb a 92 && negb escaped) next
        end
  end.

Definition first_error (text : string) : option (nat * string) :=
  scan text [] None false 0.

Definition accepts (text : string) : bool :=
  match first_error text with
  | None => true
  | Some _ => false
  end.

Definition error (text : string) : py_exception :=
  match first_error text with
  | Some (pos, String c r) =>
      if String.eqb (Text.strip r) "" then
        PyException ("closing tag '[/]' at position " ++ pretty pos
                     ++ " has nothing to close")
      else
        PyException ("closing tag '[" ++ String c r ++ "]' at position " ++ pretty pos
                     ++ " doesn't match any open tag")
  | _ => PyException "markup error"
  end.

End Markup.

(** The toolkit with that parser. *)
#[global] Instance console_markup : Toolkit := {
  markup_ok := Markup.accepts;
  MarkupError := Markup.error
}.

(** ** The methods with the checks in place *)

(** The texts the adapter displays as written in its source. *)
Definition app_literals : list string :=
  [ "[yellow]⏳ Initializing assistant...[/yellow]";
    "[red]❌ Error: OPENAI_API_KEY not found. Please create a .env file.[/red]";
    "[green]✓ Ready! Type your message below.[/green]";
    welcome_text;
    compose_text "assistant" welcome_text no_metadata;
    thinking_text;
    "[yellow]⏳ Processing your request...[/yellow]";
    "[green]✓ Response received[/green]";
    "[red]❌ Error occurred[/red]";
    "[green]✓ New session started[/green]" ].

Module Strict.
Section App.
Context {B : Type} `{Backend B} `{Retriever B} `{Toolkit}.

(** The parser accepts what the source itself writes. *)
Definition literals_accepted : Prop :=
  forallb markup_ok app_literals = true.



(** The toolkit parses [text]. *)
Definition check_markup (text : string) : M (app B) unit :=
  fun st =>
    if markup_ok text then (Returned tt, st)
    else (Raised (MarkupError text), st).

(** [Static(content, classes=..., id=...)] *)
Definition new_Static (content classes : string) (id : option string)
  : M (app B) widget :=
  check_markup content;;
  mret (Static content classes id).

(** [MessageDisplay(role, content, metadata)]; the assignment to
    [self.content] goes through the setter of [Static.content]. *)
Definition new_MessageDisplay (role content : string)
    (metadata : option message_metadata) : M (app B) widget :=
  check_markup content;;
  mret (MessageDisplay role content (default no_metadata metadata)).

(** [await chat.mount(w)]; the widget composes its children as it is
    mounted. *)
Definition mount (w : widget) : M (app B) nat :=
  check_markup (rendered w);;
  mount w.

(** [status.update(s)] on [#status-bar] *)
Definition status_update (s : string) : M (app B) unit :=
  check_markup s;;
  status_update s.

(** [session_info.update(s)] on [#session-info] *)
Definition session_info_update (s : string) : M (app B) unit :=
  check_markup s;;
  session_info_update s.

Definition on_mount (api_key : option string) (now : string) : M (app B) unit :=
  status_update "[yellow]⏳ Initializing assistant...[/yellow]";;
  if negb (Text.truthy (default "" api_key)) then
    status_update
      "[red]❌ Error: OPENAI_API_KEY not found. Please create a .env file.[/red]"
  else
    try_except
      (a ← call_DocumentAssistant (default "" api_key) "gpt-4o" 0.1;
       modify (set_assistant (Some a));;
       let user_id := "textual_user" in
       sid ← call_start_session user_id;
       modify (set_session_id (Some sid));;
       session_info_update
         ("[green]✓ Session: " ++ take_chars 8 sid ++ "...[/green]" ++ NL ++
          "[dim]Started: " ++ now ++ "[/dim]");;
       status_update "[green]✓ Ready! Type your message below.[/green]";;
       welcome ← new_MessageDisplay "assistant" welcome_text None;
       _ ← mount welcome;
       mret tt)
      (fun e => status_update ("[red]❌ Error: " ++ exc_str e ++ "[/red]")).

(** The [try] block of [send_message] *)
Definition send_message_try (user_message : string) (thinking_msg : nat)
    (start_time : Q) : M (app B) unit :=
  result ← call_process_message user_message;
  now ← loop_time;
  let elapsed := (now - start_time)%Q in
  (if Qlt_bool elapsed 0.5 then sleep (0.5 - elapsed) else mret tt);;
  remove_indicator thinking_msg;;
  ok ← getitem "success" (success result);
  if ok : bool then
    text ← getitem "response" (response result);
    assistant_msg ← new_MessageDisplay "assistant"
                      (if Text.truthy text then text else "No response generated.")
                      (Some {| md_intent := intent result;
                               md_tools_used := Some (default [] (tools_used result));
                               md_sources := Some (default [] (sources result)) |});
    _ ← mount assistant_msg;
    status_update "[green]✓ Response received[/green]"
  else
    error_msg ← new_MessageDisplay "assistant"
                  ("❌ Error: " ++ default "Unknown error" (error result)) None;
    _ ← mount error_msg;
    status_update "[red]❌ Error occurred[/red]".

(** The [except Exception as e] block of [send_message] *)
Definition send_message_except (thinking_msg : nat) (e : py_exception)
  : M (app B) unit :=
  try_pass (remove_indicator thinking_msg);;
  error_msg ← new_MessageDisplay "assistant"
                ("❌ Unexpected error: " ++ exc_str e) None;
  _ ← mount error_msg;
  status_update ("[red]❌ Error: " ++ exc_str e ++ "[/red]").

Definition send_message : M (app B) unit :=
  user_message ← gets (fun st => Text.strip (message_input st));
  if negb (Text.truthy user_message) then mret tt
  else
    modify (set_message_input "");;
    user_msg ← new_MessageDisplay "user" user_message None;
    _ ← mount user_msg;
    thinking_msg ← new_Static thinking_text "assistant-message thinking"
                     (Some "thinking-indicator");
    thinking_msg ← mount thinking_msg;
    log IndicatorMounted;;
    status_update "[yellow]⏳ Processing your request...[/yellow]";;
    sleep 0.1;;
    start_time ← loop_time;
    try_except (send_message_try user_message thinking_msg start_time)
               (send_message_except thinking_msg).

(** The lines for one entry of the document mapping; the format
    specification may raise. *)
Definition doc_lines (doc_id : string) (doc : raw_document) : outcome string :=
  let line := "• " ++ doc_id ++ ": " ++ raw_title doc
              ++ " (" ++ raw_doc_type doc ++ ")" ++ NL in
  match raw_metadata doc !! "total" with
  | Some total =>
      match PyFormat.format_comma_2f total with
      | Returned amount => Returned (line ++ "  Amount: $" ++ amount ++ NL)
      | Raised e => Raised e
      end
  | None => Returned line
  end.

(** The loop of [action_show_docs] from the text built so far. *)
Fixpoint docs_text_from (text : string) (docs : list (string * raw_document))
  : outcome string :=
  match docs with
  | [] => Returned text
  | (doc_id, doc) :: rest =>
      match doc_lines doc_id doc with
      | Returned lines => docs_text_from (text ++ lines) rest
      | Raised e => Raised e
      end
  end.

Definition action_show_docs : M (app B) unit :=
  a ← gets assistant;
  match a with
  | None => mret tt
  | Some b =>
      match docs_text_from ("📚 Available Documents:" ++ NL ++ NL) (raw_documents b) with
      | Returned docs_text =>
          push_screen {| info_content := docs_text; info_title := "Documents" |}
      | Raised e => raise e
      end
  end.

Definition action_new_session (now : string) : M (app B) unit :=
  a ← gets assistant;
  match a with
  | None => mret tt
  | Some _ =>
      sid ← call_start_session "textual_user";
      modify (set_session_id (Some sid));;
      session_info_update
        ("[green]✓ New Session: " ++ take_chars 8 sid ++ "...[/green]" ++ NL ++
         "[dim]Started: " ++ now ++ "[/dim]");;
      status_update "[green]✓ New session started[/green]"
  end.

End App.
End Strict.

(** ** Backends for the checked methods *)

#[global] Instance scripted_retriever : Retriever scripted := {
  raw_documents := fun b =>
    map (fun entry =>
           (fst entry,
            {| raw_title := title (snd entry);
               raw_doc_type := doc_type (snd entry);
               raw_metadata :=
                 (fun q : Q => PyFloat (FloatFinite (Qnum q <? 0)%Z q))
                   <$> metadata (snd entry) |}))
        (library b)
}.

(** A backend that is nothing but its document mapping; every call on it
    raises. *)
Record catalogue : Type := Catalogue {
  entries : list (string * raw_document)
}.

#[global] Instance catalogue_backend : Backend catalogue := {
  DocumentAssistant := fun _ _ _ => Returned (Catalogue []);
  start_session := fun _ b => (Raised (PyException "read-only catalogue"), b);
  process_message := fun _ b => (Raised (PyException "read-only catalogue"), b, 0%Q);
  documents := fun _ => []
}.

#[global] Instance catalogue_retriever : Retriever catalogue := {
  raw_documents := entries
}.

(** A backend that names its sessions after the key it was constructed
    with: a session id is that text followed by a count.  It answers no
    message and holds no document. *)
Record id_store : Type := IdStore {
  id_prefix : string;
  ids_issued : nat
}.

#[global] Instance id_store_backend : Backend id_store := {
  DocumentAssistant := fun key _ _ => Returned (IdStore key 0);
  start_session := fun _ b =>
    (Returned (id_prefix b ++ pretty (ids_issued b)),
     IdStore (id_prefix b) (S (ids_issued b)));
  process_message := fun _ b => (Raised (PyException "no model"), b, 0%Q);
  documents := fun _ => []
}.

#[global] Instance id_store_retriever : Retriever id_store := {
  raw_documents := fun _ => []
}.


(** The adapter after a start that succeeded: it holds the scripted
    assistant [b], shows the welcome message, and has [text] in the input
    field. *)
Definition welcomed (b : scripted) (text : string) : app scripted :=
  {| assistant := Some b;
     session_id := Some "00000000-textual_user";
     message_input := text;
     chat := [(0, MessageDisplay "assistant" welcome_text no_metadata)];
     next_widget := 1;
     status_bar := "[green]✓ Ready! Type your message below.[/green]";
     session_info := "";
     screens := [];
     clock := 0;
     trace := [] |}.

(** * The amount as the specification words it *)

Module Currency.



End Currency.

(** * Properties *)

(** ** Auxiliary facts *)








Lemma two_digits_length (n : Z) :
  (0 <= n < 100)%Z -> String.length (Format.two_digits n) = 2.
Proof.
  intros Hn.
  assert (Hall : forallb (fun k => Nat.eqb (String.length (Format.two_digits (Z.of_nat k))) 2)
                         (seq 0 100) = true) by (vm_compute; reflexivity).
  rewrite forallb_forall in Hall.
  specialize (Hall (Z.to_nat n)).
  rewrite Z2Nat.id in Hall by lia.
  apply Nat.eqb_eq, Hall, in_seq. lia.
Qed.

(** The fraction [,.2f] prints has two digits. *)
Lemma format_fraction_length (x : Q) :
  String.length (Format.two_digits (Format.cents x mod 100)) = 2.
Proof. apply two_digits_length, Z.mod_pos_bound. lia. Qed.

Lemma truthy_true (s : string) : Text.truthy s = true <-> s <> "".
Proof. destruct s; cbn; split; congruence. Qed.

Lemma truthy_false (s : string) : Text.truthy s = false <-> s = "".
Proof. destruct s; cbn; split; congruence. Qed.

(** The indicator mounted last is found in the container. *)
Lemma existsb_handle_last (ch : list (nat * widget)) (h : nat) (w : widget) :
  existsb (fun c => Nat.eqb (fst c) h) (ch ++ [(h, w)]) = true.
Proof.
  rewrite existsb_app. cbn. rewrite Nat.eqb_refl. cbn. apply orb_true_r.
Qed.

(** A handle that is not smaller than the next one to be created is not
    in the container. *)
Lemma existsb_handle_fresh (ch : list (nat * widget)) (n h : nat) :
  Forall (fun c => fst c < n) ch -> n <= h ->
  existsb (fun c => Nat.eqb (fst c) h) ch = false.
Proof.
  intros Hall Hle. induction Hall as [|c l Hc _ IH]; cbn; [reflexivity|].
  rewrite IH, orb_false_r. apply Nat.eqb_neq. lia.
Qed.

Lemma filter_handle_fresh (ch : list (nat * widget)) (n h : nat) :
  Forall (fun c => fst c < n) ch -> n <= h ->
  List.filter (fun c => negb (Nat.eqb (fst c) h)) ch = ch.
Proof.
  intros Hall Hle. induction Hall as [|c l Hc _ IH]; cbn; [reflexivity|].
  rewrite IH. replace (Nat.eqb (fst c) h) with false; [reflexivity|].
  symmetry. apply Nat.eqb_neq. lia.
Qed.

(** Removing the indicator mounted after the user's message leaves the
    earlier children and that message. *)
Lemma filter_drop_indicator (ch : list (nat * widget)) (n : nat) (u t : widget) :
  Forall (fun c => fst c < n) ch ->
  List.filter (fun c => negb (Nat.eqb (fst c) (S n)))
              ((ch ++ [(n, u)]) ++ [(S n, t)])
  = (ch ++ [(n, u)])%list.
Proof.
  intros Hall. rewrite !List.filter_app.
  rewrite (filter_handle_fresh ch n (S n)) by (auto; lia).
  cbn. rewrite Nat.eqb_refl. cbn.
  replace (Nat.eqb n (S n)) with false by (symmetry; apply Nat.eqb_neq; lia).
  cbn. rewrite app_nil_r. reflexivity.
Qed.

Lemma existsb_after_removal (ch : list (nat * widget)) (n : nat) (u : widget) :
  Forall (fun c => fst c < n) ch ->
  existsb (fun c => Nat.eqb (fst c) (S n)) (ch ++ [(n, u)]) = false.
Proof.
  intros Hall. rewrite existsb_app.
  rewrite (existsb_handle_fresh ch n (S n)) by (auto; lia).
  cbn. rewrite orb_false_r. apply Nat.eqb_neq. lia.
Qed.

Lemma append_cons (x : ascii) (a b : string) :
  String x a ++ b = String x (a ++ b).
Proof. reflexivity. Qed.



Lemma contains_here (a x b : string) : Text.contains (a ++ x ++ b) x.
Proof. exists a, b. reflexivity. Qed.





#[local] Arguments Text.strip : simpl never.
#[local] Arguments Text.truthy : simpl never.
#[local] Arguments Qlt_bool : simpl never.
#[local] Arguments Qplus : simpl never.
#[local] Arguments Qminus : simpl never.
#[local] Arguments thinking_text : simpl never.

Ltac unfold_monad :=
  unfold try_pass, try_except, remove_indicator, remove, is_mounted, log,
    status_update, session_info_update, push_screen, mount, loop_time,
    sleep, getitem, raise, modify, gets, mbind, mret, M_bind, M_ret,
    set_assistant, set_session_id, set_message_input, set_chat,
    set_status_bar, set_session_info, set_screens, set_clock, set_trace in *.

Ltac track_indicator :=
  repeat (first [ rewrite existsb_handle_last
                | rewrite filter_drop_indicator by assumption
                | rewrite existsb_after_removal by assumption ];
          cbn).

Section Properties.
Context {B : Type} `{Backend B}.

(** *** The three ways a submission ends *)

Lemma send_message_raised (st : app B) (b b' : B) (e : py_exception) (d : Q) :
  Text.truthy (Text.strip (message_input st)) = true ->
  assistant st = Some b ->
  process_message (Text.strip (message_input st)) b = (Raised e, b', d) ->
  fresh_handles st ->
  send_message st =
    (Returned tt,
     {| assistant := Some b';
        session_id := session_id st;
        message_input := "";
        chat := chat_after st
                  (MessageDisplay "assistant"
                     ("❌ Unexpected error: " ++ exc_str e) no_metadata);
        next_widget := S (S (S (next_widget st)));
        status_bar := "[red]❌ Error: " ++ exc_str e ++ "[/red]";
        session_info := session_info st;
        screens := screens st;
        clock := clock st + 0.1 + d;
        trace := (trace st
                  ++ [(clock st, IndicatorMounted);
                      ((clock st + 0.1)%Q, MessageSent (Text.strip (message_input st)));
                      ((clock st + 0.1 + d)%Q, BackendCompleted);
                      ((clock st + 0.1 + d)%Q, IndicatorRemoved)])%list |}).
Proof.
  intros Hb Ha Hp Hw. destruct st as [a sid inp ch n sb si scr clk tr].
  unfold fresh_handles, chat_after in *. cbn in *. subst a.
  unfold send_message, call_process_message. unfold_monad.
  cbn. rewrite Hb. cbn.
  change (Qlt_bool 0 0.1) with true. cbn.
  rewrite Hp. cbn. track_indicator.
  rewrite <- !app_assoc. reflexivity.
Qed.

Lemma send_message_returned (st : app B) (b b' : B) (r : process_result) (d : Q) :
  Text.truthy (Text.strip (message_input st)) = true ->
  assistant st = Some b ->
  process_message (Text.strip (message_input st)) b = (Returned r, b', d) ->
  fresh_handles st ->
  send_message st =
    (Returned tt,
     {| assistant := Some b';
        session_id := session_id st;
        message_input := "";
        chat := chat_after st (fst (reply_to r));
        next_widget := S (S (S (next_widget st)));
        status_bar := snd (reply_to r);
        session_info := session_info st;
        screens := screens st;
        clock := indicator_release (clock st + 0.1) (clock st + 0.1 + d);
        trace := (trace st
                  ++ [(clock st, IndicatorMounted);
                      ((clock st + 0.1)%Q, MessageSent (Text.strip (message_input st)));
                      ((clock st + 0.1 + d)%Q, BackendCompleted);
                      (indicator_release (clock st + 0.1) (clock st + 0.1 + d),
                       IndicatorRemoved)])%list |}).
Proof.
  intros Hb Ha Hp Hw. destruct st as [a sid inp ch n sb si scr clk tr].
  unfold fresh_handles, chat_after, reply_to, unexpected_error,
    indicator_release in *.
  cbn in *. subst a.
  unfold send_message, call_process_message. unfold_monad.
  cbn. rewrite Hb. cbn.
  change (Qlt_bool 0 0.1) with true. cbn.
  rewrite Hp. cbn.
  destruct (Qlt_bool (clk + 0.1 + d - (clk + 0.1)) 0.5); cbn;
    [destruct (Qlt_bool 0 (0.5 - (clk + 0.1 + d - (clk + 0.1)))); cbn|];
    track_indicator;
    (destruct (success r) as [[|]|]; cbn;
     [destruct (response r) as [text|]; cbn| |]);
    track_indicator; rewrite <- !app_assoc; reflexivity.
Qed.


(** *** Blank submissions *)

(** C5.  When the input field holds the empty string or only whitespace,
    [send_message] returns at once and leaves the whole application state
    as it was: nothing is mounted in the chat container (no user message,
    no thinking indicator, no error message), the status bar is untouched
    and the trace gains no event, so the backend is not called.  The same
    holds when the submission arrives through the Send button or the
    Enter key. *)
Theorem blank_submission_is_noop (st : app B) :
  Text.strip (message_input st) = "" ->
  send_message st = (Returned tt, st)
  /\ on_button_pressed (Some "send-button") st = (Returned tt, st)
  /\ on_input_submitted (Some "message-input") st = (Returned tt, st).
Proof.
  intros Hblank.
  assert (Hs : send_message st = (Returned tt, st)).
  { unfold send_message, mbind, M_bind, gets. rewrite Hblank. reflexivity. }
  split; [exact Hs|].
  unfold on_button_pressed, on_input_submitted.
  rewrite !decide_True by reflexivity. split; exact Hs.
Qed.

(** *** The chat container after a submission *)

Lemma fresh_handles_chat_after (st : app B) (reply : widget) :
  fresh_handles st ->
  Forall (fun c => fst c < S (S (S (next_widget st)))) (chat_after st reply).
Proof.
  unfold fresh_handles, chat_after. intros Hw.
  apply Forall_app. split.
  - eapply Forall_impl; [exact Hw|]. cbn. intros c Hc. lia.
  - repeat constructor; cbn; lia.
Qed.

(** *** An adapter without a backend client *)







(** *** Start-up without a credential *)


(** *** The auxiliary actions *)

Lemma action_new_session_frame (now : string) (st : app B) :
  chat (snd (action_new_session now st)) = chat st
  /\ message_input (snd (action_new_session now st)) = message_input st
  /\ next_widget (snd (action_new_session now st)) = next_widget st
  /\ clock (snd (action_new_session now st)) = clock st
  /\ trace_without_sessions (snd (action_new_session now st))
     = trace_without_sessions st.
Proof.
  destruct st as [a sid inp ch n sb si scr clk tr].
  unfold action_new_session, call_start_session, trace_without_sessions.
  unfold_monad. cbn.
  destruct a as [b|]; cbn; [|auto].
  destruct (start_session "textual_user" b) as [[s|e] b']; cbn;
    rewrite List.filter_app; cbn; rewrite app_nil_r; auto.
Qed.

(** *** How long the indicator stays *)


End Properties.


(** A blank field on the scripted backend. *)
Lemma blank_submission_is_noop_witness :
  send_message (ready (script [] []) "  	 ")
  = (Returned tt, ready (script [] []) "  	 ").
Proof.
  apply (blank_submission_is_noop (ready (script [] []) "  	 ")).
  vm_compute. reflexivity.
Defined.




(** C9, as the specification words it, fails: invoked before the backend
    client exists, the help display is not a no-op, it pushes the help
    screen. *)
Lemma help_display_is_not_a_noop :
  ~ (forall st : app scripted,
       assistant st = None ->
       action_show_docs st = (Returned tt, st)
       /\ action_show_help st = (Returned tt, st)
       /\ action_new_session "09:30:00" st = (Returned tt, st)).
Proof.
  intros Hall.
  destruct (Hall (new_app 0) eq_refl) as (_ & Hhelp & _).
  vm_compute in Hhelp. discriminate Hhelp.
Qed.

(** ** src/prompts.py: the template dispatch *)

(** C10.  [get_chat_prompt_template] is defined on every string.  On [qa],
    [summarization] and [calculation] it builds the template around the
    system prompt of that name; on every other string, [unknown] among
    them, around the Q&A system prompt.  Whatever the argument, the
    template is a system message, the placeholder for [chat_history], and
    the human message [{input}], in that order. *)
Theorem get_chat_prompt_template_dispatch (intent_type : string) :
  Prompts.get_chat_prompt_template "qa"
  = Prompts.chat_template_of Prompts.QA_SYSTEM_PROMPT
  /\ Prompts.get_chat_prompt_template "summarization"
     = Prompts.chat_template_of Prompts.SUMMARIZATION_SYSTEM_PROMPT
  /\ Prompts.get_chat_prompt_template "calculation"
     = Prompts.chat_template_of Prompts.CALCULATION_SYSTEM_PROMPT
  /\ Prompts.get_chat_prompt_template "unknown"
     = Prompts.chat_template_of Prompts.QA_SYSTEM_PROMPT
  /\ (intent_type <> "qa" -> intent_type <> "summarization" ->
      intent_type <> "calculation" ->
      Prompts.get_chat_prompt_template intent_type
      = Prompts.chat_template_of Prompts.QA_SYSTEM_PROMPT)
  /\ (exists system_prompt,
        Prompts.get_chat_prompt_template intent_type
        = [ Prompts.SystemMessagePromptTemplate system_prompt;
            Prompts.MessagesPlaceholder "chat_history";
            Prompts.HumanMessagePromptTemplate "{input}" ]
        /\ (system_prompt = Prompts.QA_SYSTEM_PROMPT
            \/ system_prompt = Prompts.SUMMARIZATION_SYSTEM_PROMPT
            \/ system_prompt = Prompts.CALCULATION_SYSTEM_PROMPT)).
Proof.
  split; [reflexivity|]. split; [reflexivity|]. split; [reflexivity|].
  split; [reflexivity|].
  unfold Prompts.get_chat_prompt_template, Prompts.chat_template_of.
  split.
  - intros Hq Hs Hc.
    apply String.eqb_neq in Hq, Hs, Hc. rewrite Hq, Hs, Hc. reflexivity.
  - destruct (String.eqb intent_type "qa");
      [|destruct (String.eqb intent_type "summarization");
        [|destruct (String.eqb intent_type "calculation")]];
      eexists; (split; [reflexivity|]); auto.
Qed.

(** An intent type the classifier never produces. *)
Lemma get_chat_prompt_template_dispatch_witness :
  Prompts.get_chat_prompt_template "translation"
  = Prompts.chat_template_of Prompts.QA_SYSTEM_PROMPT.
Proof.
  apply (get_chat_prompt_template_dispatch "translation");
    intros Heq; vm_compute in Heq; discriminate Heq.
Defined.

(** ** The embedding at work *)

Example strip_trims_both_ends :
  Text.strip "  hello world 	
" = "hello world".
Proof. reflexivity. Qed.

Example strip_knows_wide_spaces : Text.strip " 　a b　 " = "a b".
Proof. reflexivity. Qed.

Example strip_keeps_symbols : Text.strip "❌ x" = "❌ x".
Proof. reflexivity. Qed.

Example format_groups_millions :
  Format.format_comma_2f 1234567.891 = "1,234,567.89".
Proof. vm_compute. reflexivity. Qed.

Example format_ties_to_even :
  Format.format_comma_2f 0.125 = "0.12" /\ Format.format_comma_2f 0.375 = "0.38".
Proof. split; vm_compute; reflexivity. Qed.

Example format_keeps_sign : Format.format_comma_2f (-1999.5) = "-1,999.50".
Proof. vm_compute. reflexivity. Qed.

Example format_three_digits : Format.format_comma_2f 999 = "999.00".
Proof. vm_compute. reflexivity. Qed.

Example user_message_text :
  rendered (new_MessageDisplay "user" "hello" None)
  = "[bold cyan]👤 You:[/bold cyan]" ++ NL ++ "hello".
Proof. reflexivity. Qed.

Example empty_intent_is_not_annotated :
  rendered (MessageDisplay "assistant" "ok"
              {| md_intent := Some ∅; md_tools_used := Some [];
                 md_sources := Some ["CON-001"; "CLM-001"] |})
  = "[bold green]🤖 Assistant:[/bold green]" ++ NL ++ "ok" ++ NL
    ++ "[dim]Sources: CON-001, CLM-001[/dim]".
Proof. vm_compute. reflexivity. Qed.

Example intent_without_type_is_unknown :
  rendered (MessageDisplay "assistant" "ok"
              {| md_intent := Some {[ "reasoning" := "unclear" ]};
                 md_tools_used := None; md_sources := None |})
  = "[bold green]🤖 Assistant:[/bold green]" ++ NL ++ "ok" ++ NL ++ NL
    ++ "[dim]Intent: unknown[/dim]".
Proof. vm_compute. reflexivity. Qed.

(** Start-up with a credential: the client is constructed, a session is
    started and the welcome message is mounted. *)
Example on_mount_with_credential :
  let st := snd (on_mount (B := scripted) (Some "sk-test") "09:30:00" (new_app 0)) in
  status_bar st = "[green]✓ Ready! Type your message below.[/green]"
  /\ session_id st = Some "00000000-textual_user"
  /\ session_info st = "[green]✓ Session: 00000000...[/green]" ++ NL
                       ++ "[dim]Started: 09:30:00[/dim]"
  /\ map snd (trace st) = [AssistantConstructed "sk-test"; SessionStarted "textual_user"]
  /\ map snd (chat st) = [MessageDisplay "assistant" welcome_text no_metadata].
Proof. vm_compute. repeat split; reflexivity. Qed.

(** Start-up with a credential the backend refuses: the handler of
    [on_mount] reports it in the status bar. *)
Example on_mount_with_refused_credential :
  on_mount (B := scripted) (Some "revoked") "09:30:00" (new_app 0)
  = (Returned tt,
     set_trace [(0%Q, AssistantConstructed "revoked")]
       (set_status_bar "[red]❌ Error: invalid API key[/red]" (new_app 0))).
Proof. vm_compute. reflexivity. Qed.

(** A result without the key [success] ends in the handler. *)
Example result_without_success_key :
  map (fun c => rendered (snd c))
      (chat (snd (send_message
                    (ready (script [(Returned {| success := None; response := None;
                                                 intent := None; tools_used := None;
                                                 sources := None; error := None |},
                                      0.7%Q)] [])
                           "hello"))))
  = [ "[bold cyan]👤 You:[/bold cyan]" ++ NL ++ "hello";
      "[bold green]🤖 Assistant:[/bold green]" ++ NL
      ++ "❌ Unexpected error: 'success'" ].
Proof. vm_compute. reflexivity. Qed.

(** Without a client a submission ends in the handler as well. *)
Example submission_without_client :
  map (fun c => rendered (snd c))
      (chat (snd (send_message (set_message_input "hello" (new_app (B := scripted) 0)))))
  = [ "[bold cyan]👤 You:[/bold cyan]" ++ NL ++ "hello";
      "[bold green]🤖 Assistant:[/bold green]" ++ NL
      ++ "❌ Unexpected error: 'NoneType' object has no attribute 'process_message'" ].
Proof. vm_compute. reflexivity. Qed.

(** A new session on a backend whose session store fails: the exception
    leaves [action_new_session]. *)
Example new_session_on_failing_store :
  fst (action_new_session "09:30:00"
         (set_assistant
            (Some {| replies := []; sessions_started := 1; session_fails := true;
                     library := [] |})
            (new_app 0)))
  = Raised (PyException "session store offline").
Proof. vm_compute. reflexivity. Qed.

(** * Further properties of the adapter *)

Section Submissions.
Context {B : Type} `{Backend B}.

(** The state a submission reaches on an adapter without client. *)
Lemma send_message_no_client (st : app B) :
  Text.truthy (Text.strip (message_input st)) = true ->
  assistant st = None ->
  fresh_handles st ->
  send_message st =
    (Returned tt,
     {| assistant := None;
        session_id := session_id st;
        message_input := "";
        chat := chat_after st
                  (fst (unexpected_error (AttributeError_None "process_message")));
        next_widget := S (S (S (next_widget st)));
        status_bar := snd (unexpected_error (AttributeError_None "process_message"));
        session_info := session_info st;
        screens := screens st;
        clock := clock st + 0.1;
        trace := (trace st
                  ++ [(clock st, IndicatorMounted);
                      ((clock st + 0.1)%Q, IndicatorRemoved)])%list |}).
Proof.
  intros Hb Ha Hw. destruct st as [a sid inp ch n sb si scr clk tr].
  unfold fresh_handles, chat_after, unexpected_error in *. cbn in *. subst a.
  unfold send_message, call_process_message. unfold_monad.
  cbn. rewrite Hb. cbn.
  change (Qlt_bool 0 0.1) with true. cbn. track_indicator.
  rewrite <- !app_assoc. reflexivity.
Qed.





End Submissions.

Section Sessions.
Context {B : Type} `{Backend B}.


(** When [start_session] raises, the new-session action does not catch the
    exception: it leaves the action, and the session id, the session panel
    and the status bar keep what they showed. *)
Theorem new_session_failure_propagates
    (st : app B) (b b' : B) (e : py_exception) (now : string) :
  assistant st = Some b ->
  start_session "textual_user" b = (Raised e, b') ->
  action_new_session now st
  = (Raised e,
     set_assistant (Some b')
       (set_trace (trace st ++ [(clock st, SessionStarted "textual_user")])%list st)).
Proof.
  intros Ha Hstart. destruct st as [a sid0 inp ch n sb si scr clk tr].
  cbn in *. subst a.
  unfold action_new_session, call_start_session. unfold_monad. cbn.
  rewrite Hstart. cbn. reflexivity.
Qed.


End Sessions.

Lemma match_snoc {A T : Type} (l : list A) (x : A) (a b : T) :
  match (l ++ [x])%list with [] => a | _ :: _ => b end = b.
Proof. destruct l; reflexivity. Qed.

Section Screens.
Context {B : Type} `{Backend B}.

(** Closing the help screen undoes its display: the help action followed
    by the Close button of the screen gives back the state the action
    started from. *)
Theorem help_then_close_restores (st : app B) :
  (action_show_help;; InfoScreen_on_button_pressed (Some "close-button")) st
  = (Returned tt, st).
Proof.
  destruct st as [a sid inp ch n sb si scr clk tr].
  unfold action_show_help, InfoScreen_on_button_pressed, pop_screen.
  unfold_monad. rewrite decide_True by reflexivity. cbn.
  rewrite match_snoc, removelast_last. reflexivity.
Qed.


(** A button of an information screen other than Close changes nothing. *)
Theorem info_screen_ignores_other_buttons (st : app B) (button_id : option string) :
  button_id <> Some "close-button" ->
  InfoScreen_on_button_pressed button_id st = (Returned tt, st).
Proof.
  intros Hne. unfold InfoScreen_on_button_pressed.
  rewrite decide_False by exact Hne. reflexivity.
Qed.

End Screens.

Section Invariants.
Context {B : Type} `{Backend B}.

Lemma reply_is_message (r : process_result) :
  is_message (fst (reply_to r)) = true.
Proof.
  unfold reply_to, unexpected_error.
  destruct (success r) as [[|]|]; [destruct (response r)| |]; reflexivity.
Qed.

(** What a submission does to the chat container, whatever its course:
    nothing, or the user's message and one reply after what was there. *)
Lemma send_message_shape (st : app B) :
  fresh_handles st ->
  exists st',
    send_message st = (Returned tt, st')
    /\ ((chat st' = chat st /\ next_widget st' = next_widget st)
        \/ exists reply,
             is_message reply = true
             /\ chat st' = chat_after st reply
             /\ next_widget st' = S (S (S (next_widget st)))).
Proof.
  intros Hw. destruct (Text.truthy (Text.strip (message_input st))) eqn:Hb.
  - destruct (assistant st) as [b|] eqn:Ha.
    + destruct (process_message (Text.strip (message_input st)) b)
        as [[[r|e] b'] d] eqn:Hp.
      * eexists. split; [apply (send_message_returned st b b' r d Hb Ha Hp Hw)|].
        right. eexists. split; [apply (reply_is_message r)|]. split; reflexivity.
      * eexists. split; [apply (send_message_raised st b b' e d Hb Ha Hp Hw)|].
        right. eexists. split; [|split; reflexivity]. reflexivity.
    + eexists. split; [apply (send_message_no_client st Hb Ha Hw)|].
      right. eexists. split; [|split; reflexivity]. reflexivity.
  - exists st. split; [|left; split; reflexivity].
    unfold send_message, mbind, M_bind, gets. rewrite Hb. reflexivity.
Qed.

Lemma chat_kept (st st' : app B) :
  chat st' = chat st -> next_widget st' = next_widget st ->
  fresh_handles st ->
  fresh_handles st'
  /\ chat st `prefix_of` chat st'
  /\ (only_messages st -> only_messages st').
Proof.
  unfold fresh_handles, only_messages. intros -> -> Hw. auto.
Qed.

Lemma send_message_invariant (st : app B) :
  fresh_handles st ->
  fresh_handles (snd (send_message st))
  /\ chat st `prefix_of` chat (snd (send_message st))
  /\ (only_messages st -> only_messages (snd (send_message st))).
Proof.
  intros Hw. destruct (send_message_shape st Hw) as (st' & -> & Hshape).
  cbn [snd]. destruct Hshape as [[Hc Hn] | (reply & Hm & Hc & Hn)].
  - apply chat_kept; assumption.
  - split; [|split].
    + unfold fresh_handles. rewrite Hc, Hn. apply fresh_handles_chat_after, Hw.
    + rewrite Hc. unfold chat_after. apply prefix_app_r. reflexivity.
    + unfold only_messages. rewrite Hc. unfold chat_after.
      rewrite forallb_app. intros ->. cbn. rewrite Hm. reflexivity.
Qed.

Lemma dispatch_invariant (ev : ui_event) (st : app B) :
  fresh_handles st ->
  fresh_handles (snd (dispatch ev st))
  /\ chat st `prefix_of` chat (snd (dispatch ev st))
  /\ (only_messages st -> only_messages (snd (dispatch ev st))).
Proof.
  intros Hw. destruct ev as [text|button_id|input_id| | |now]; cbn [dispatch].
  - apply chat_kept; [reflexivity|reflexivity|exact Hw].
  - unfold on_button_pressed. destruct (decide _).
    + apply send_message_invariant, Hw.
    + apply chat_kept; [reflexivity|reflexivity|exact Hw].
  - unfold on_input_submitted. destruct (decide _).
    + apply send_message_invariant, Hw.
    + apply chat_kept; [reflexivity|reflexivity|exact Hw].
  - unfold action_show_docs, mbind, M_bind, gets.
    destruct (assistant st); apply chat_kept; (reflexivity || exact Hw).
  - apply chat_kept; [reflexivity|reflexivity|exact Hw].
  - destruct (action_new_session_frame now st) as (Hc & _ & Hn & _).
    apply chat_kept; assumption.
Qed.

Lemma run_invariant (evs : list ui_event) (st : app B) :
  fresh_handles st ->
  fresh_handles (snd (run evs st))
  /\ chat st `prefix_of` chat (snd (run evs st))
  /\ (only_messages st -> only_messages (snd (run evs st))).
Proof.
  revert st. induction evs as [|ev evs IH]; intros st Hw.
  - cbn. split; [exact Hw|]. split; [reflexivity|auto].
  - destruct (dispatch_invariant ev st Hw) as (Hw1 & Hp1 & Hm1).
    cbn [run]. unfold mbind, M_bind.
    destruct (dispatch ev st) as [[[]|e] st1]; cbn [snd] in *.
    + destruct (IH st1 Hw1) as (Hw2 & Hp2 & Hm2).
      split; [exact Hw2|]. split; [etransitivity; eassumption|auto].
    + split; [exact Hw1|]. split; [exact Hp1|exact Hm1].
Qed.

Lemma on_mount_invariant (api_key : option string) (now : string) (st : app B) :
  fresh_handles st ->
  fresh_handles (snd (on_mount api_key now st))
  /\ chat st `prefix_of` chat (snd (on_mount api_key now st))
  /\ (only_messages st -> only_messages (snd (on_mount api_key now st))).
Proof.
  intros Hw. destruct st as [a sid inp ch n sb si scr clk tr].
  unfold fresh_handles, only_messages in *. cbn in Hw.
  unfold on_mount, call_DocumentAssistant, call_start_session. unfold_monad. cbn.
  destruct (Text.truthy (default "" api_key)); cbn;
    [|split; [exact Hw|]; split; [reflexivity|auto]].
  destruct (DocumentAssistant (default "" api_key) "gpt-4o" 0.1%Q) as [b|e]; cbn;
    [|split; [exact Hw|]; split; [reflexivity|auto]].
  destruct (start_session "textual_user" b) as [[s|e] b']; cbn;
    [|split; [exact Hw|]; split; [reflexivity|auto]].
  split; [|split].
  - apply Forall_app. split.
    + eapply Forall_impl; [exact Hw|]. cbn. intros c Hc. lia.
    + repeat constructor; try (cbn; lia).
  - apply prefix_app_r. reflexivity.
  - rewrite forallb_app. intros ->. reflexivity.
Qed.

(** Whatever the environment and the backend, and whatever events follow
    the start-up, in the state the adapter is left in every child of the
    chat container is a message: the thinking indicator of a submission is
    never left on the screen, also when the backend raised or there was no
    client.  The widget objects in the container are all distinct from the
    next one to be created. *)
Theorem indicator_never_left_on_screen
    (api_key : option string) (now : string) (t : Q) (evs : list ui_event) :
  only_messages (snd (run evs (snd (on_mount api_key now (new_app (B := B) t)))))
  /\ fresh_handles (snd (run evs (snd (on_mount api_key now (new_app (B := B) t))))).
Proof.
  assert (Hw0 : fresh_handles (new_app (B := B) t)) by constructor.
  destruct (on_mount_invariant api_key now _ Hw0) as (Hw1 & _ & Hm1).
  destruct (run_invariant evs _ Hw1) as (Hw2 & _ & Hm2).
  split; [|exact Hw2]. apply Hm2, Hm1. reflexivity.
Qed.

(** No event removes or reorders what the chat container shows: the
    transcript before a run of events is a prefix of the transcript after
    it, also when the run ends in an exception. *)
Theorem transcript_only_grows (evs : list ui_event) (st : app B) :
  fresh_handles st ->
  transcript st `prefix_of` transcript (snd (run evs st)).
Proof.
  intros Hw. destruct (run_invariant evs st Hw) as (_ & [k Hk] & _).
  unfold transcript. rewrite Hk, map_app. apply prefix_app_r. reflexivity.
Qed.

End Invariants.

Section BlankInput.
Context {B : Type} `{Backend B}.

Lemma drop_space_ascii_blank (backwards : bool) (s : string) :
  ascii_blank s = true -> Text.drop_space backwards s = "".
Proof.
  induction s as [|c r IH]; [reflexivity|].
  cbn [ascii_blank]. intros Hs. apply andb_true_iff in Hs as [Hc Hr].
  cbn [Text.drop_space]. rewrite Hc. apply IH, Hr.
Qed.

Lemma strip_ascii_blank (s : string) :
  ascii_blank s = true -> Text.strip s = "".
Proof.
  intros Hs. unfold Text.strip, Text.lstrip, Text.rstrip.
  rewrite (drop_space_ascii_blank false s Hs). reflexivity.
Qed.

(** Input made only of spaces, tabs and line breaks is blank: the
    submission is dropped with the state unchanged, whichever way it
    arrives. *)
Theorem whitespace_only_input_is_ignored (st : app B) :
  ascii_blank (message_input st) = true ->
  send_message st = (Returned tt, st)
  /\ dispatch (ButtonPressed (Some "send-button")) st = (Returned tt, st)
  /\ dispatch (InputSubmitted (Some "message-input")) st = (Returned tt, st).
Proof.
  intros Hs. apply strip_ascii_blank in Hs.
  assert (Hrun : send_message st = (Returned tt, st)).
  { unfold send_message, mbind, M_bind, gets. rewrite Hs. reflexivity. }
  split; [exact Hrun|].
  cbn [dispatch]. unfold on_button_pressed, on_input_submitted.
  rewrite !decide_True by reflexivity. split; exact Hrun.
Qed.

End BlankInput.

(** ** The amount in the document listing *)

Lemma without_commas_cons (c : ascii) (r : string) :
  without_commas (String c r)
  = if Ascii.eqb c "," then without_commas r else String c (without_commas r).
Proof.
  unfold without_commas. cbn [list_ascii_of_string List.filter].
  destruct (Ascii.eqb c ","); reflexivity.
Qed.

Lemma without_commas_app (a b : string) :
  without_commas (a ++ b) = without_commas a ++ without_commas b.
Proof.
  induction a as [|c a IH]; [reflexivity|].
  rewrite append_cons, !without_commas_cons, IH.
  destruct (Ascii.eqb c ","); reflexivity.
Qed.

Lemma without_commas_reverse (s : string) :
  without_commas (Text.reverse s) = Text.reverse (without_commas s).
Proof.
  unfold without_commas, Text.reverse.
  rewrite !list_ascii_of_string_of_list_ascii. now rewrite List.filter_rev.
Qed.

Lemma reverse_involutive (s : string) : Text.reverse (Text.reverse s) = s.
Proof.
  unfold Text.reverse.
  rewrite list_ascii_of_string_of_list_ascii, rev_involutive.
  apply string_of_list_ascii_of_string.
Qed.

Lemma reverse_length (s : string) : String.length (Text.reverse s) = String.length s.
Proof.
  assert (Hlen : forall l, String.length (string_of_list_ascii l) = length l).
  { induction l as [|c l IH]; cbn; congruence. }
  unfold Text.reverse. rewrite Hlen, length_rev, <- Hlen.
  now rewrite string_of_list_ascii_of_string.
Qed.

(** Grouping adds commas and nothing else, one for every three characters
    that have more after them. *)
Lemma group3_spec (n : nat) (s : string) :
  String.length s <= n ->
  without_commas (Format.group3 s) = without_commas s
  /\ String.length (Format.group3 s)
     = String.length s + (String.length s - 1) / 3.
Proof.
  revert s. induction n as [n IH] using (well_founded_induction lt_wf).
  intros s Hlen.
  destruct s as [|a [|b [|c [|d r]]]]; try (split; reflexivity).
  destruct (IH (String.length (String d r)) ltac:(cbn in *; lia) (String d r)
              ltac:(lia)) as [IHc IHl].
  change (Format.group3 (String a (String b (String c (String d r)))))
    with (String a (String b (String c (String "," (Format.group3 (String d r)))))).
  split.
  - rewrite !without_commas_cons, IHc, !without_commas_cons.
    change (Ascii.eqb "," ",") with true. cbv iota. reflexivity.
  - cbn [String.length]. rewrite IHl. cbn [String.length].
    replace (S (S (S (S (String.length r)))) - 1) with (String.length r + 1 * 3) by lia.
    rewrite Nat.div_add by lia.
    replace (S (String.length r) - 1) with (String.length r) by lia. lia.
Qed.

Lemma group_thousands_spec (digits : string) :
  without_commas (Format.group_thousands digits) = without_commas digits
  /\ String.length (Format.group_thousands digits)
     = String.length digits + (String.length digits - 1) / 3.
Proof.
  unfold Format.group_thousands.
  destruct (group3_spec (String.length (Text.reverse digits)) (Text.reverse digits)
              (le_n _)) as [Hc Hl].
  split.
  - rewrite without_commas_reverse, Hc, <- without_commas_reverse.
    now rewrite reverse_involutive.
  - now rewrite reverse_length, Hl, reverse_length.
Qed.

Lemma pretty_N_char_not_comma (x : N) : Ascii.eqb (pretty_N_char x) "," = false.
Proof. unfold pretty_N_char. repeat case_match; reflexivity. Qed.

Lemma without_commas_pretty_go (x : N) (s : string) :
  without_commas (pretty_N_go x s) = pretty_N_go x (without_commas s).
Proof.
  revert s. induction (N.lt_wf_0 x) as [x _ IH]. intros s.
  destruct (decide (x = 0)%N) as [->|Hx].
  - now rewrite !pretty_N_go_0.
  - rewrite !pretty_N_go_step by lia.
    rewrite IH by (apply N.div_lt; lia).
    rewrite without_commas_cons, pretty_N_char_not_comma.
    now rewrite (pretty_N_go_step x (without_commas s)) by lia.
Qed.

Lemma without_commas_pretty (n : N) : without_commas (pretty n) = pretty n.
Proof.
  unfold pretty, pretty_N. destruct (decide (n = 0)%N); [reflexivity|].
  apply without_commas_pretty_go.
Qed.

Lemma without_commas_two_digits (n : Z) :
  without_commas (Format.two_digits n) = Format.two_digits n.
Proof.
  unfold Format.two_digits. destruct (n <? 10)%Z.
  - rewrite without_commas_app, without_commas_pretty. reflexivity.
  - apply without_commas_pretty.
Qed.

(** The amount printed with [,.2f] differs from the one [.2f] prints in its
    commas only: with the commas taken out it is the sign, the decimal
    digits of the whole part and the two digits of the fraction. *)
Theorem amount_without_commas (x : Q) :
  without_commas (Format.format_comma_2f x)
  = (if (Qnum x <? 0)%Z then "-" else "")
    ++ pretty (Z.to_N (Format.cents x / 100))
    ++ "." ++ Format.two_digits (Format.cents x mod 100).
Proof.
  unfold Format.format_comma_2f.
  rewrite !without_commas_app.
  rewrite (proj1 (group_thousands_spec _)), without_commas_pretty,
    without_commas_two_digits.
  destruct (Qnum x <? 0)%Z; reflexivity.
Qed.

(** The thousands separator of the format [,.2f] on the whole part of an
    amount: a whole part of [n] digits is printed with [(n - 1) / 3]
    commas, and taking them out gives the digits back. *)
Theorem thousands_grouping (x : Q) :
  without_commas (Format.group_thousands (pretty (Z.to_N (Format.cents x / 100))))
  = pretty (Z.to_N (Format.cents x / 100))
  /\ String.length (Format.group_thousands (pretty (Z.to_N (Format.cents x / 100))))
     = String.length (pretty (Z.to_N (Format.cents x / 100)))
       + (String.length (pretty (Z.to_N (Format.cents x / 100))) - 1) / 3.
Proof.
  destruct (group_thousands_spec (pretty (Z.to_N (Format.cents x / 100))))
    as [Hc Hl].
  split; [|exact Hl]. now rewrite Hc, without_commas_pretty.
Qed.

(** ** The further properties on the scripted backends *)





Lemma new_session_failure_propagates_witness :
  fst (action_new_session "10:00:00"
         (set_assistant (Some UnreachableStore) (new_app 0)))
  = Raised (PyException "session store offline").
Proof.
  rewrite (new_session_failure_propagates
             (set_assistant (Some UnreachableStore) (new_app 0))
             UnreachableStore UnreachableStore
             (PyException "session store offline") "10:00:00").
  - reflexivity.
  - reflexivity.
  - reflexivity.
Defined.



Lemma whitespace_only_input_is_ignored_witness :
  send_message (ready (script [] []) "  	
 ")
  = (Returned tt, ready (script [] []) "  	
 ").
Proof.
  apply (whitespace_only_input_is_ignored (ready (script [] []) "  	
 ")).
  vm_compute. reflexivity.
Defined.

(** ** src/prompts.py: which intent types share a template *)

Lemma system_prompts_differ :
  Prompts.QA_SYSTEM_PROMPT <> Prompts.SUMMARIZATION_SYSTEM_PROMPT
  /\ Prompts.QA_SYSTEM_PROMPT <> Prompts.CALCULATION_SYSTEM_PROMPT
  /\ Prompts.SUMMARIZATION_SYSTEM_PROMPT <> Prompts.CALCULATION_SYSTEM_PROMPT.
Proof.
  repeat split; intros Heq; apply String.eqb_eq in Heq;
    vm_compute in Heq; discriminate Heq.
Qed.

(** Two intent types are given the same template exactly when they are
    equal or neither is [summarization] or [calculation]: the three system
    prompts are pairwise different, and everything else shares the Q&A
    prompt. *)
Theorem templates_coincide_iff (a b : string) :
  Prompts.get_chat_prompt_template a = Prompts.get_chat_prompt_template b
  <-> a = b
      \/ ((a <> "summarization" /\ a <> "calculation")
          /\ (b <> "summarization" /\ b <> "calculation")).
Proof.
  destruct system_prompts_differ as (Hqs & Hqc & Hsc).
  unfold Prompts.get_chat_prompt_template.
  destruct (String.eqb_spec a "qa") as [->|Haq];
    [|destruct (String.eqb_spec a "summarization") as [->|Has];
      [|destruct (String.eqb_spec a "calculation") as [->|Hac]]];
    (destruct (String.eqb_spec b "qa") as [->|Hbq];
     [|destruct (String.eqb_spec b "summarization") as [->|Hbs];
       [|destruct (String.eqb_spec b "calculation") as [->|Hbc]]]);
    cbn [String.eqb Ascii.eqb Bool.eqb];
    (split;
     [ intros Heq;
       first [ left; reflexivity
             | right; repeat split; first [assumption | discriminate]
             | exfalso; injection Heq as Heq; congruence ]
     | intros [Heq | [[H1 H2] [H3 H4]]];
       first [ reflexivity | congruence | discriminate Heq ] ]).
Qed.

(** * Properties of the adapter on the checking toolkit

    The theorems below are about the methods of [Strict], in which the
    toolkit parses every text it is handed, session ids are cut by
    characters and the totals of the documents are Python values. *)

#[local] Arguments compose_text : simpl never.
#[local] Arguments take_chars : simpl never.
#[local] Arguments welcome_text : simpl never.

Ltac unfold_checked :=
  unfold Strict.send_message, Strict.send_message_try, Strict.send_message_except,
    Strict.on_mount, Strict.action_new_session,
    Strict.new_MessageDisplay, Strict.new_Static, Strict.mount,
    Strict.status_update, Strict.session_info_update, Strict.check_markup,
    call_process_message, call_start_session, call_DocumentAssistant in *.

Ltac pass_checks :=
  repeat match goal with
         | Hok : markup_ok ?t = true |- context [markup_ok ?t] => rewrite Hok; cbn
         end.


Section Checked.
Context {B : Type} `{Backend B} `{Retriever B} `{Toolkit}.

Lemma literals (text : string) :
  Strict.literals_accepted -> In text app_literals -> markup_ok text = true.
Proof.
  unfold Strict.literals_accepted. rewrite forallb_forall. auto.
Qed.









(** *** Failures of the backend call *)


(** *** Failures the backend reports *)


(** *** Successful replies *)


End Checked.

Section CheckedStartUp.
Context {B : Type} `{Backend B} `{Retriever B} `{Toolkit}.


(** With a credential and a backend that answers, [on_mount] leaves the
    adapter ready, provided the toolkit accepts the session line, which
    quotes the session id: the adapter holds the client as
    [start_session] left it and the session id that call returned, shows
    the first eight characters of the id with the time, and has mounted
    the welcome message; the backend was called twice, to construct the
    client with the key and to start the session of [textual_user]. *)
Theorem start_up_leaves_adapter_ready (key now sid : string) (t : Q) (b b' : B) :
  Strict.literals_accepted ->
  key <> "" ->
  DocumentAssistant key "gpt-4o" 0.1%Q = Returned b ->
  start_session "textual_user" b = (Returned sid, b') ->
  markup_ok ("[green]✓ Session: " ++ take_chars 8 sid ++ "...[/green]" ++ NL
             ++ "[dim]Started: " ++ now ++ "[/dim]") = true ->
  Strict.on_mount (Some key) now (new_app t)
  = (Returned tt,
     {| assistant := Some b';
        session_id := Some sid;
        message_input := "";
        chat := [(0, MessageDisplay "assistant" welcome_text no_metadata)];
        next_widget := 1;
        status_bar := "[green]✓ Ready! Type your message below.[/green]";
        session_info := "[green]✓ Session: " ++ take_chars 8 sid ++ "...[/green]"
                        ++ NL ++ "[dim]Started: " ++ now ++ "[/dim]";
        screens := [];
        clock := t;
        trace := [(t, AssistantConstructed key); (t, SessionStarted "textual_user")] |}).
Proof.
  intros Hlit Hkey Hnew Hstart Hline. apply truthy_true in Hkey.
  pose proof (literals "[yellow]⏳ Initializing assistant...[/yellow]" Hlit
                ltac:(cbn; tauto)) as Hinit.
  pose proof (literals "[green]✓ Ready! Type your message below.[/green]" Hlit
                ltac:(cbn; tauto)) as Hready.
  pose proof (literals welcome_text Hlit ltac:(cbn; tauto)) as Hwelcome.
  pose proof (literals (compose_text "assistant" welcome_text no_metadata) Hlit
                ltac:(cbn; tauto)) as Hcomposed.
  unfold new_app. unfold_checked. unfold_monad.
  cbn. pass_checks. rewrite Hkey. cbn. rewrite Hnew. cbn.
  rewrite Hstart. cbn. pass_checks. reflexivity.
Qed.

(** When [DocumentAssistant] raises an exception whose description the
    toolkit accepts in the status line, [on_mount] shows the description
    in the status bar and leaves the adapter without client and without
    session: no session is started and nothing is mounted. *)
Theorem start_up_reports_refused_client (key now : string) (t : Q) (e : py_exception) :
  Strict.literals_accepted ->
  key <> "" ->
  DocumentAssistant key "gpt-4o" 0.1%Q = Raised e ->
  markup_ok ("[red]❌ Error: " ++ exc_str e ++ "[/red]") = true ->
  Strict.on_mount (B := B) (Some key) now (new_app t)
  = (Returned tt,
     set_trace [(t, AssistantConstructed key)]
       (set_status_bar ("[red]❌ Error: " ++ exc_str e ++ "[/red]") (new_app t))).
Proof.
  intros Hlit Hkey Hnew Hline. apply truthy_true in Hkey.
  pose proof (literals "[yellow]⏳ Initializing assistant...[/yellow]" Hlit
                ltac:(cbn; tauto)) as Hinit.
  unfold new_app. unfold_checked. unfold_monad.
  cbn. pass_checks. rewrite Hkey. cbn. rewrite Hnew. cbn. pass_checks.
  reflexivity.
Qed.

(** When the client is constructed but [start_session] raises an exception
    whose description the toolkit accepts in the status line, [on_mount]
    shows the description in the status bar and keeps the client: the
    adapter holds a backend client, has no session id, and shows neither
    the session line nor the welcome message. *)
Theorem start_up_reports_refused_session
    (key now : string) (t : Q) (b b' : B) (e : py_exception) :
  Strict.literals_accepted ->
  key <> "" ->
  DocumentAssistant key "gpt-4o" 0.1%Q = Returned b ->
  start_session "textual_user" b = (Raised e, b') ->
  markup_ok ("[red]❌ Error: " ++ exc_str e ++ "[/red]") = true ->
  Strict.on_mount (Some key) now (new_app t)
  = (Returned tt,
     {| assistant := Some b';
        session_id := None;
        message_input := "";
        chat := [];
        next_widget := 0;
        status_bar := "[red]❌ Error: " ++ exc_str e ++ "[/red]";
        session_info := "";
        screens := [];
        clock := t;
        trace := [(t, AssistantConstructed key); (t, SessionStarted "textual_user")] |}).
Proof.
  intros Hlit Hkey Hnew Hstart Hline. apply truthy_true in Hkey.
  pose proof (literals "[yellow]⏳ Initializing assistant...[/yellow]" Hlit
                ltac:(cbn; tauto)) as Hinit.
  unfold new_app. unfold_checked. unfold_monad.
  cbn. pass_checks. rewrite Hkey. cbn. rewrite Hnew. cbn.
  rewrite Hstart. cbn. pass_checks. reflexivity.
Qed.

(** With a client, the new-session action starts a session for
    [textual_user] and makes the id it is given the current one, provided
    the toolkit accepts the session line: the id is stored, its first
    eight characters and the time go into the session panel, the status
    bar confirms; the chat container, the input field and the screens are
    as before. *)
Theorem new_session_shows_start_of_id (st : app B) (b b' : B) (sid now : string) :
  Strict.literals_accepted ->
  assistant st = Some b ->
  start_session "textual_user" b = (Returned sid, b') ->
  markup_ok ("[green]✓ New Session: " ++ take_chars 8 sid ++ "...[/green]" ++ NL
             ++ "[dim]Started: " ++ now ++ "[/dim]") = true ->
  Strict.action_new_session now st
  = (Returned tt,
     {| assistant := Some b';
        session_id := Some sid;
        message_input := message_input st;
        chat := chat st;
        next_widget := next_widget st;
        status_bar := "[green]✓ New session started[/green]";
        session_info := "[green]✓ New Session: " ++ take_chars 8 sid ++ "...[/green]"
                        ++ NL ++ "[dim]Started: " ++ now ++ "[/dim]";
        screens := screens st;
        clock := clock st;
        trace := (trace st ++ [(clock st, SessionStarted "textual_user")])%list |}).
Proof.
  intros Hlit Ha Hstart Hline.
  pose proof (literals "[green]✓ New session started[/green]" Hlit
                ltac:(cbn; tauto)) as Hstarted.
  destruct st as [a sid0 inp ch n sb si scr clk tr].
  cbn in *. subst a.
  unfold_checked. unfold_monad. cbn.
  rewrite Hstart. cbn. pass_checks. reflexivity.
Qed.


(** *** The auxiliary actions *)

Lemma action_new_session_checked_frame (now : string) (st : app B) :
  chat (snd (Strict.action_new_session now st)) = chat st
  /\ message_input (snd (Strict.action_new_session now st)) = message_input st
  /\ next_widget (snd (Strict.action_new_session now st)) = next_widget st
  /\ clock (snd (Strict.action_new_session now st)) = clock st
  /\ trace_without_sessions (snd (Strict.action_new_session now st))
     = trace_without_sessions st.
Proof.
  destruct st as [a sid inp ch n sb si scr clk tr].
  unfold trace_without_sessions. unfold_checked. unfold_monad. cbn.
  destruct a as [b|]; cbn; [|auto].
  destruct (start_session "textual_user" b) as [[s|e] b']; cbn;
    repeat (match goal with
            | |- context [markup_ok ?t] => destruct (markup_ok t)
            end; cbn);
    rewrite List.filter_app; cbn; rewrite app_nil_r; auto.
Qed.

Lemma action_show_docs_checked_frame (st : app B) :
  exists scrs, snd (Strict.action_show_docs st) = set_screens scrs st.
Proof.
  destruct st as [a sid inp ch n sb si scr clk tr].
  unfold Strict.action_show_docs. unfold_monad. cbn.
  destruct a as [b|]; cbn; [|exists scr; reflexivity].
  destruct (Strict.docs_text_from _ _); cbn; eexists; reflexivity.
Qed.

(** C9, as the code has it.  Before the backend client exists the document
    listing and the new-session action return with the state unchanged.
    The help display does not look at the client: in every state it
    returns after pushing the help screen and changes nothing else.
    Whether they return or raise, the document listing changes nothing
    but the stack of screens, and the new-session action touches neither
    the chat container, the input field, the widget counter nor the clock
    and adds to the trace nothing but the start of a session, so the
    widgets and the timing of a submission under way are left as they
    are. *)
Theorem auxiliary_actions_spare_the_chat (st : app B) (now : string) :
  (assistant st = None ->
     Strict.action_show_docs st = (Returned tt, st)
     /\ Strict.action_new_session now st = (Returned tt, st))
  /\ action_show_help st
     = (Returned tt,
        set_screens (screens st ++ [{| info_content := help_text;
                                       info_title := "Help" |}])%list st)
  /\ (exists scrs, snd (Strict.action_show_docs st) = set_screens scrs st)
  /\ chat (snd (Strict.action_new_session now st)) = chat st
  /\ message_input (snd (Strict.action_new_session now st)) = message_input st
  /\ next_widget (snd (Strict.action_new_session now st)) = next_widget st
  /\ clock (snd (Strict.action_new_session now st)) = clock st
  /\ trace_without_sessions (snd (Strict.action_new_session now st))
     = trace_without_sessions st.
Proof.
  split.
  { intros Ha. unfold Strict.action_show_docs, Strict.action_new_session.
    unfold mbind, M_bind, gets. rewrite Ha. split; reflexivity. }
  split; [reflexivity|].
  split; [apply action_show_docs_checked_frame|].
  apply action_new_session_checked_frame.
Qed.

End CheckedStartUp.

(** ** The amount in the document listing, read back *)












Section Listing.
Context {B : Type} `{Backend B} `{Retriever B} `{Toolkit}.






End Listing.



(** ** The submission theorems on the scripted backend *)

Lemma literals_accepted_console : Strict.literals_accepted.
Proof. vm_compute. reflexivity. Qed.







(** ** The properties of the checked adapter on concrete backends *)


(** A session id with a letter outside ASCII: its first eight characters
    are nine bytes. *)
Lemma start_up_leaves_adapter_ready_witness :
  exists st',
    Strict.on_mount (B := id_store) (Some "séance-00") "09:30:00" (new_app 0)
    = (Returned tt, st')
    /\ session_id st' = Some "séance-000"
    /\ session_info st'
       = "[green]✓ Session: séance-0...[/green]" ++ NL
         ++ "[dim]Started: 09:30:00[/dim]"
    /\ map snd (chat st') = [MessageDisplay "assistant" welcome_text no_metadata].
Proof.
  eexists. split.
  - apply (start_up_leaves_adapter_ready (B := id_store)
             "séance-00" "09:30:00" "séance-000" 0%Q
             (IdStore "séance-00" 0) (IdStore "séance-00" 1)
             literals_accepted_console).
    + discriminate.
    + reflexivity.
    + reflexivity.
    + vm_compute. reflexivity.
  - split; [reflexivity|]. split; [vm_compute; reflexivity|reflexivity].
Defined.

(** The key the scripted backend refuses. *)
Lemma start_up_reports_refused_client_witness :
  Strict.on_mount (B := scripted) (Some "revoked") "09:30:00" (new_app 0)
  = (Returned tt,
     set_trace [(0%Q, AssistantConstructed "revoked")]
       (set_status_bar "[red]❌ Error: invalid API key[/red]" (new_app 0))).
Proof.
  apply (start_up_reports_refused_client (B := scripted) "revoked" "09:30:00" 0%Q
           (PyException "invalid API key") literals_accepted_console).
  - discriminate.
  - reflexivity.
  - vm_compute. reflexivity.
Defined.

(** The backend whose session store is down. *)
Lemma start_up_reports_refused_session_witness :
  exists st',
    Strict.on_mount (B := unreachable_store) (Some "sk-test") "09:30:00" (new_app 0)
    = (Returned tt, st')
    /\ assistant st' = Some UnreachableStore
    /\ session_id st' = None
    /\ status_bar st' = "[red]❌ Error: session store offline[/red]"
    /\ chat st' = [].
Proof.
  eexists. split.
  - apply (start_up_reports_refused_session (B := unreachable_store)
             "sk-test" "09:30:00" 0%Q UnreachableStore UnreachableStore
             (PyException "session store offline") literals_accepted_console).
    + discriminate.
    + reflexivity.
    + reflexivity.
    + vm_compute. reflexivity.
  - repeat split; reflexivity.
Defined.

(** The thirteenth session of a store whose ids hold a letter outside
    ASCII. *)
Lemma new_session_shows_start_of_id_witness :
  exists st',
    Strict.action_new_session "10:15:00"
      (set_assistant (Some (IdStore "séance-" 12)) (new_app 0))
    = (Returned tt, st')
    /\ session_id st' = Some "séance-12"
    /\ session_info st'
       = "[green]✓ New Session: séance-1...[/green]" ++ NL
         ++ "[dim]Started: 10:15:00[/dim]"
    /\ assistant st' = Some (IdStore "séance-" 13).
Proof.
  eexists. split.
  - apply (new_session_shows_start_of_id
             (set_assistant (Some (IdStore "séance-" 12)) (new_app 0))
             (IdStore "séance-" 12) (IdStore "séance-" 13) "séance-12" "10:15:00"
             literals_accepted_console).
    + reflexivity.
    + reflexivity.
    + vm_compute. reflexivity.
  - split; [reflexivity|]. split; [vm_compute; reflexivity|reflexivity].
Defined.


(** The three actions on an adapter that was never given a client. *)
Lemma auxiliary_actions_spare_the_chat_witness :
  Strict.action_show_docs (new_app (B := scripted) 0) = (Returned tt, new_app 0)
  /\ Strict.action_new_session "09:30:00" (new_app (B := scripted) 0)
     = (Returned tt, new_app 0).
Proof.
  apply (proj1 (auxiliary_actions_spare_the_chat (new_app (B := scripted) 0)
                  "09:30:00")).
  reflexivity.
Defined.

(** A question is answered under the welcome message, then the session
    store fails the new-session action and the run ends in its exception:
    the welcome message, the question and the answer stay. *)
Lemma transcript_only_grows_witness :
  fst (run [Typed "hello"; InputSubmitted (Some "message-input");
            ActionNewSession "10:00:00"; ActionShowHelp]
           (welcomed {| replies := [(Returned invoice_result, 0.2%Q)];
                        sessions_started := 1; session_fails := true;
                        library := [] |} ""))
  = Raised (PyException "session store offline")
  /\ length (transcript
               (welcomed {| replies := [(Returned invoice_result, 0.2%Q)];
                            sessions_started := 1; session_fails := true;
                            library := [] |} "")) = 1
  /\ transcript (welcomed {| replies := [(Returned invoice_result, 0.2%Q)];
                             sessions_started := 1; session_fails := true;
                             library := [] |} "")
     `prefix_of`
     transcript
       (snd (run [Typed "hello"; InputSubmitted (Some "message-input");
                  ActionNewSession "10:00:00"; ActionShowHelp]
                 (welcomed {| replies := [(Returned invoice_result, 0.2%Q)];
                              sessions_started := 1; session_fails := true;
                              library := [] |} ""))).
Proof.
  split; [vm_compute; reflexivity|]. split; [reflexivity|].
  apply (transcript_only_grows
           [Typed "hello"; InputSubmitted (Some "message-input");
            ActionNewSession "10:00:00"; ActionShowHelp]
           (welcomed {| replies := [(Returned invoice_result, 0.2%Q)];
                        sessions_started := 1; session_fails := true;
                        library := [] |} "")).
  repeat constructor.
Defined.

(** ** The checks at work *)

Example first_eight_characters : take_chars 8 "séance-12" = "séance-1".
Proof. reflexivity. Qed.

Example first_eight_of_a_short_id : take_chars 8 "abc" = "abc".
Proof. reflexivity. Qed.

Example lone_closing_tag_is_rejected : markup_ok "[/b]" = false.
Proof. reflexivity. Qed.

Example status_line_with_closing_tag_is_rejected :
  markup_ok "[red]❌ Error: bad [/red] tag[/red]" = false.
Proof. vm_compute. reflexivity. Qed.

Example brackets_that_are_no_tags_are_accepted :
  markup_ok "totals [1, 2] and [INV-001]" = true.
Proof. vm_compute. reflexivity. Qed.

Example escaped_closing_tag_is_accepted : markup_ok "write \[/b] to end" = true.
Proof. vm_compute. reflexivity. Qed.

Example format_negative_zero :
  PyFormat.format_comma_2f (PyFloat (FloatFinite true 0)) = Returned "-0.00".
Proof. vm_compute. reflexivity. Qed.

Example format_int_beyond_53_bits :
  PyFormat.format_comma_2f (PyInt (2 ^ 53 + 1))
  = Returned "9,007,199,254,740,992.00".
Proof. vm_compute. reflexivity. Qed.

Example format_of_None :
  PyFormat.format_comma_2f PyNone
  = Raised (PyException "unsupported format string passed to NoneType.__format__").
Proof. reflexivity. Qed.

Example format_of_infinity :
  PyFormat.format_comma_2f (PyFloat (FloatInf false)) = Returned "inf".
Proof. reflexivity. Qed.
